(** * Session persistence and message reconciliation of the Lyzr agent server

    A shallow embedding of [src/openai_model.py] (conversion of ADK contents
    to OpenAI messages, with the dangling tool-call repair pass),
    [src/postgres_session_service.py] (event codec, session table, retry on
    connection errors) and [src/server.py] (session setup with MongoDB
    hydration, and the streamed frames). *)

From stdpp Require Import base gmap strings list.
From Stdlib Require Import Strings.String Strings.Ascii ZArith DecimalString.

Local Open Scope list_scope.
#[local] Set Warnings "-register-all".

(* ------------------------------------------------------------------ *)
(** ** Python values *)

(** The Python values that flow through tool responses and call arguments.
    [VObj value attrs repr] is an arbitrary object: [value] is its [.value]
    attribute when it has one, [attrs] its [__dict__] when it has one, and
    [repr] what [str()] prints for it. Dict keys are themselves values, as
    in Python. *)
Inductive PyVal : Type :=
| VNone
| VBool (b : bool)
| VInt (z : Z)
| VStr (s : string)
| VList (xs : list PyVal)
| VTuple (xs : list PyVal)
| VDict (kvs : list (PyVal * PyVal))
| VObj (value : option PyVal) (attrs : option (list (string * PyVal))) (repr : string).

Definition z_to_dec (z : Z) : string := NilZero.string_of_int (Z.to_int z).

(** [str()] / [repr()] of a value. *)
Fixpoint py_repr (v : PyVal) : string :=
  match v with
  | VNone => "None"
  | VBool true => "True"
  | VBool false => "False"
  | VInt z => z_to_dec z
  | VStr s => String.append "'" (String.append s "'")
  | VList xs => String.append "[" (String.append (String.concat ", " (map py_repr xs)) "]")
  | VTuple xs =>
      String.append "(" (String.append (String.concat ", " (map py_repr xs))
        (if Nat.eqb (List.length xs) 1 then ",)" else ")"))
  | VDict kvs =>
      String.append "{" (String.append
        (String.concat ", " (map (fun '(k, x) => String.append (py_repr k) (String.append ": " (py_repr x))) kvs))
        "}")
  | VObj _ _ r => r
  end.

Definition py_str (v : PyVal) : string :=
  match v with
  | VStr s => s
  | _ => py_repr v
  end.

(** Keys [json.dumps] accepts: str, int, float, bool, None. *)
Definition is_json_key (k : PyVal) : bool :=
  match k with
  | VNone | VBool _ | VInt _ | VStr _ => true
  | _ => false
  end.

(** [json.dumps v] succeeds (tuples are written as arrays). *)
Fixpoint encodable (v : PyVal) : bool :=
  match v with
  | VNone | VBool _ | VInt _ | VStr _ => true
  | VList xs | VTuple xs => forallb encodable xs
  | VDict kvs => forallb (fun '(k, x) => is_json_key k && encodable x) kvs
  | VObj _ _ _ => false
  end.

(** The key [json.dumps] writes for an accepted key. *)
Definition json_key (k : PyVal) : string :=
  match k with
  | VStr s => s
  | VInt z => z_to_dec z
  | VBool true => "true"
  | VBool false => "false"
  | _ => "null"
  end.

(** [d[k] = x] on a dict loaded by [json.loads]: a repeated key keeps its
    first position and takes the last value. *)
Fixpoint dict_set (k : string) (x : PyVal) (d : list (PyVal * PyVal)) : list (PyVal * PyVal) :=
  match d with
  | [] => [(VStr k, x)]
  | (k', y) :: d' =>
      match k' with
      | VStr s => if String.eqb s k then (k', x) :: d' else (k', y) :: dict_set k x d'
      | _ => (k', y) :: dict_set k x d'
      end
  end.

Definition dict_of_pairs (l : list (string * PyVal)) : list (PyVal * PyVal) :=
  fold_left (fun d '(k, x) => dict_set k x d) l [].

(** [json.loads(json.dumps(v))] for an encodable [v]. *)
Fixpoint json_rt (v : PyVal) : PyVal :=
  match v with
  | VList xs | VTuple xs => VList (map json_rt xs)
  | VDict kvs => VDict (dict_of_pairs (map (fun '(k, x) => (json_key k, json_rt x)) kvs))
  | _ => v
  end.

(** [json.loads(json.dumps(v))], [None] when [json.dumps] raises. *)
Definition json_loads_dumps (v : PyVal) : option PyVal :=
  if encodable v then Some (json_rt v) else None.

(* ------------------------------------------------------------------ *)
(** ** Tool-response normalization *)

(** [LiteLlm._safe_serialize] (openai_model.py). *)
Fixpoint safe_serialize (v : PyVal) : PyVal :=
  match v with
  | VObj (Some x) _ _ => safe_serialize x
  | VDict kvs => VDict (map (fun '(k, x) => (k, safe_serialize x)) kvs)
  | VList xs => VList (map safe_serialize xs)
  | VNone | VBool _ | VInt _ | VStr _ => v
  | VObj None (Some attrs) _ =>
      VDict ((fix go (l : list (string * PyVal)) : list (PyVal * PyVal) :=
                match l with
                | [] => []
                | (k, x) :: l' =>
                    if String.prefix "_" k then go l' else (VStr k, safe_serialize x) :: go l'
                end) attrs)
  | VObj None None _ | VTuple _ => VStr (py_str v)
  end.

(** The normalization of [PostgresSessionService._serialize_event]:
    one [.value] unwrap, one [__dict__] flattening, then [str()] when
    [json.dumps] fails. *)
Definition unwrap_value (v : PyVal) : PyVal :=
  match v with
  | VObj (Some x) _ _ => x
  | _ => v
  end.

Definition public_attrs (attrs : list (string * PyVal)) : list (PyVal * PyVal) :=
  map (fun '(k, x) => (VStr k, x)) (List.filter (fun '(k, _) => negb (String.prefix "_" k)) attrs).

Definition flatten_attrs (v : PyVal) : PyVal :=
  match v with
  | VObj _ (Some attrs) _ => VDict (public_attrs attrs)
  | _ => v
  end.

Definition normalize_response (v : PyVal) : PyVal :=
  let r := flatten_attrs (unwrap_value v) in
  if encodable r then r else VStr (py_str r).

(* ------------------------------------------------------------------ *)
(** ** ADK events (google.genai types) *)

Record FunctionCall := mkFunctionCall {
  fc_id : option string;
  fc_name : string;
  fc_args : PyVal
}.

Record FunctionResponse := mkFunctionResponse {
  fr_id : option string;
  fr_name : string;
  fr_response : PyVal
}.

(** A [types.Part] carries exactly one of text, a call or a response. *)
Inductive Part :=
| PText (s : string)
| PCall (fc : FunctionCall)
| PResp (fr : FunctionResponse).

Record Content := mkContent {
  c_role : option string;
  c_parts : list Part
}.

Record Event := mkEvent {
  ev_author : string;
  ev_content : option Content
}.

(** Python truthiness of a [str]. *)
Definition truthy_str (s : string) : bool := negb (String.eqb s "").

(* ------------------------------------------------------------------ *)
(** ** Event codec: the stored dict shapes *)

(** The dict written for one part: [{text}], [{function_call: {name, args[, id]}}],
    [{function_response: {id, name, response}}], or [{}] when the part
    is none of them in Python's truthiness. *)
Inductive PartDict :=
| PDText (s : string)
| PDCall (name : string) (args : PyVal) (id : option string)
| PDResp (id : option string) (name : string) (response : PyVal)
| PDEmpty.

Record ContentDict := mkContentDict {
  cd_role : option string;
  cd_parts : list PartDict
}.

Record EventDict := mkEventDict {
  ed_author : string;
  ed_content : option ContentDict
}.

(** The loop body of [_serialize_event]. *)
Definition serialize_part (p : Part) : PartDict :=
  match p with
  | PText s => if truthy_str s then PDText s else PDEmpty
  | PCall fc =>
      PDCall (fc_name fc) (fc_args fc)
        (match fc_id fc with
         | Some i => if truthy_str i then Some i else None
         | None => None
         end)
  | PResp fr => PDResp (fr_id fr) (fr_name fr) (normalize_response (fr_response fr))
  end.

(** [PostgresSessionService._serialize_event]. *)
Definition serialize_event (e : Event) : EventDict :=
  mkEventDict (ev_author e)
    (match ev_content e with
     | Some c => Some (mkContentDict (c_role c) (map serialize_part (c_parts c)))
     | None => None
     end).

(** What pydantic accepts for [FunctionCall.args] and
    [FunctionResponse.response], both typed [Optional[dict[str, Any]]]:
    [None], or a dict whose keys are strings. Anything else (a string, a
    number, a list) raises [ValidationError]. *)
Definition pydantic_dict (v : PyVal) : bool :=
  match v with
  | VNone => true
  | VDict kvs => forallb (fun kv => match fst kv with VStr _ => true | _ => false end) kvs
  | _ => false
  end.

(** The loop body of [_deserialize_event]: the parts one dict contributes,
    [None] when building the [types.FunctionCall] or
    [types.FunctionResponse] raises [ValidationError]; a dict with none of
    the keys contributes no part. *)
Definition deserialize_part (d : PartDict) : option (list Part) :=
  match d with
  | PDText s => Some [PText s]
  | PDCall name args id =>
      if pydantic_dict args then Some [PCall (mkFunctionCall id name args)] else None
  | PDResp id name resp =>
      if pydantic_dict resp then Some [PResp (mkFunctionResponse id name resp)] else None
  | PDEmpty => Some []
  end.

Fixpoint deserialize_parts (ds : list PartDict) : option (list Part) :=
  match ds with
  | [] => Some []
  | d :: ds' =>
      match deserialize_part d, deserialize_parts ds' with
      | Some ps, Some ps' => Some (ps ++ ps')
      | _, _ => None
      end
  end.

(** [PostgresSessionService._deserialize_event]; [None] when it raises. *)
Definition deserialize_event (d : EventDict) : option Event :=
  match ed_content d with
  | Some cd =>
      match deserialize_parts (cd_parts cd) with
      | Some ps => Some (mkEvent (ed_author d) (Some (mkContent (cd_role cd) ps)))
      | None => None
      end
  | None => Some (mkEvent (ed_author d) None)
  end.

(** [[self._deserialize_event(e) for e in json.loads(...)]]; [None] when
    one of the events raises. *)
Fixpoint load_events (ds : list EventDict) : option (list Event) :=
  match ds with
  | [] => Some []
  | d :: ds' =>
      match deserialize_event d, load_events ds' with
      | Some e, Some es => Some (e :: es)
      | _, _ => None
      end
  end.

(** [json.loads(json.dumps(d))] on one stored event dict; [None] when
    [json.dumps] raises on a call's arguments or a response. *)
Definition part_json (d : PartDict) : option PartDict :=
  match d with
  | PDCall name args id =>
      match json_loads_dumps args with
      | Some a => Some (PDCall name a id)
      | None => None
      end
  | PDResp id name resp =>
      match json_loads_dumps resp with
      | Some r => Some (PDResp id name r)
      | None => None
      end
  | _ => Some d
  end.

Fixpoint parts_json (ds : list PartDict) : option (list PartDict) :=
  match ds with
  | [] => Some []
  | d :: ds' =>
      match part_json d, parts_json ds' with
      | Some d', Some ds'' => Some (d' :: ds'')
      | _, _ => None
      end
  end.

Definition event_json (d : EventDict) : option EventDict :=
  match ed_content d with
  | None => Some d
  | Some cd =>
      match parts_json (cd_parts cd) with
      | Some ps => Some (mkEventDict (ed_author d) (Some (mkContentDict (cd_role cd) ps)))
      | None => None
      end
  end.

Fixpoint events_json (ds : list EventDict) : option (list EventDict) :=
  match ds with
  | [] => Some []
  | d :: ds' =>
      match event_json d, events_json ds' with
      | Some d', Some ds'' => Some (d' :: ds'')
      | _, _ => None
      end
  end.

(* ------------------------------------------------------------------ *)
(** ** OpenAI messages built by [LiteLlm.generate_content_async] *)

(** A message [content] or a tool call's [arguments]: a Python string, the
    text [json.dumps(v)], or a non-dict value passed through as it is. *)
Inductive Payload :=
| PlStr (s : string)
| PlJson (v : PyVal)
| PlRaw (v : PyVal).

Record ToolCall := mkToolCall {
  tc_id : string;
  tc_type : string;
  tc_name : string;
  tc_arguments : Payload
}.

(** A message dict; [None] in [m_tool_calls] / [m_tool_call_id] is an
    absent key, [None] in [m_content] is [content: None]. *)
Record Msg := mkMsg {
  m_role : string;
  m_content : option Payload;
  m_tool_calls : option (list ToolCall);
  m_tool_call_id : option string
}.

Definition truthy_payload (p : option Payload) : bool :=
  match p with
  | Some (PlStr s) => truthy_str s
  | Some (PlJson _) => true
  | Some (PlRaw _) => true
  | None => false
  end.

(** [x or "call_unknown"]. *)
Definition id_or_unknown (i : option string) : string :=
  match i with
  | Some s => if truthy_str s then s else "call_unknown"
  | None => "call_unknown"
  end.

(** [json.dumps(args) if isinstance(args, dict) else args]; [None] when
    [json.dumps] raises (the exception leaves the method). *)
Definition call_arguments (args : PyVal) : option Payload :=
  match args with
  | VDict _ => if encodable args then Some (PlJson args) else None
  | _ => Some (PlRaw args)
  end.

(** The [try] block around [_safe_serialize] and [json.dumps]. *)
Definition tool_content (resp : PyVal) : Payload :=
  match safe_serialize resp with
  | VStr s => PlStr s
  | ser =>
      if encodable ser then PlJson ser
      else PlStr (String.append "Error: Could not serialize response - "
                    (String.substring 0 100 (py_str resp)))
  end.

(** The loop over [content.parts]: text, tool calls and tool responses. *)
Fixpoint scan_parts (ps : list Part) (text : string) (calls : list ToolCall) (resps : list Msg)
  : option (string * list ToolCall * list Msg) :=
  match ps with
  | [] => Some (text, calls, resps)
  | PText s :: ps' =>
      if truthy_str s then scan_parts ps' (String.append text s) calls resps
      else scan_parts ps' text calls resps
  | PCall fc :: ps' =>
      match call_arguments (fc_args fc) with
      | Some a =>
          scan_parts ps' text
            (calls ++ [mkToolCall (id_or_unknown (fc_id fc)) "function" (fc_name fc) a]) resps
      | None => None
      end
  | PResp fr :: ps' =>
      scan_parts ps' text calls
        (resps ++ [mkMsg "tool" (Some (tool_content (fr_response fr))) None
                     (Some (id_or_unknown (fr_id fr)))])
  end.

(** The messages one content contributes. *)
Definition convert_content (c : Content) : option (list Msg) :=
  let role := match c_role c with
              | Some r => if String.eqb r "user" then "user" else "assistant"
              | None => "assistant"
              end in
  match scan_parts (c_parts c) "" [] [] with
  | None => None
  | Some (text, calls, resps) =>
      Some (match resps with
            | _ :: _ => resps
            | [] =>
                match calls with
                | _ :: _ =>
                    [mkMsg role (if truthy_str text then Some (PlStr text) else None) (Some calls) None]
                | [] => if truthy_str text then [mkMsg role (Some (PlStr text)) None None] else []
                end
            end)
  end.

Fixpoint convert_contents (cs : list Content) : option (list Msg) :=
  match cs with
  | [] => Some []
  | c :: cs' =>
      match convert_content c, convert_contents cs' with
      | Some ms, Some ms' => Some (ms ++ ms')
      | _, _ => None
      end
  end.

Definition system_messages (sys : option string) : list Msg :=
  match sys with
  | Some s => if truthy_str s then [mkMsg "system" (Some (PlStr s)) None None] else []
  | None => []
  end.

(** The messages before the sanity-check pass. *)
Definition build_messages (sys : option string) (cs : list Content) : option (list Msg) :=
  match convert_contents cs with
  | Some ms => Some (system_messages sys ++ ms)
  | None => None
  end.

(** Step 1 of the cleanup: the truthy [tool_call_id]s of tool messages. *)
Definition tool_response_ids (ms : list Msg) : list string :=
  flat_map (fun m =>
              if String.eqb (m_role m) "tool" then
                match m_tool_call_id m with
                | Some i => if truthy_str i then [i] else []
                | None => []
                end
              else []) ms.

Definition has_response (ids : list string) (tc : ToolCall) : bool :=
  existsb (String.eqb (tc_id tc)) ids.

(** Step 2 on one message: what it contributes to [cleaned_messages]. *)
Definition clean_msg (ids : list string) (m : Msg) : list Msg :=
  if String.eqb (m_role m) "assistant" then
    match m_tool_calls m with
    | Some tcs =>
        match List.filter (has_response ids) tcs with
        | (_ :: _) as kept => [mkMsg (m_role m) (m_content m) (Some kept) (m_tool_call_id m)]
        | [] =>
            if truthy_payload (m_content m)
            then [mkMsg (m_role m) (m_content m) None (m_tool_call_id m)]
            else []
        end
    | None => [m]
    end
  else [m].

Definition clean_with (ids : list string) (ms : list Msg) : list Msg :=
  flat_map (clean_msg ids) ms.

Definition clean_messages (ms : list Msg) : list Msg :=
  clean_with (tool_response_ids ms) ms.

(** The [messages] list handed to [acompletion]; [None] when building it
    raises. *)
Definition to_backend_messages (sys : option string) (cs : list Content) : option (list Msg) :=
  match build_messages sys cs with
  | Some ms => Some (clean_messages ms)
  | None => None
  end.

(** The backend's acceptance rule: each assistant message with
    [tool_calls] is followed, contiguously, by tool messages covering all of
    its ids. *)
Fixpoint leading_tool_ids (ms : list Msg) : list string :=
  match ms with
  | m :: rest =>
      if String.eqb (m_role m) "tool" then
        match m_tool_call_id m with
        | Some i => i :: leading_tool_ids rest
        | None => leading_tool_ids rest
        end
      else []
  | [] => []
  end.

Fixpoint backend_ok (ms : list Msg) : bool :=
  match ms with
  | [] => true
  | m :: rest =>
      (if String.eqb (m_role m) "assistant" then
         match m_tool_calls m with
         | Some tcs => forallb (has_response (leading_tool_ids rest)) tcs
         | None => true
         end
       else true) && backend_ok rest
  end.

(* ------------------------------------------------------------------ *)
(** ** The [adk_sessions] table and [PostgresSessionService] *)

Inductive ExnClass := OperationalError | ValueError | TypeError | KeyError | OtherError.

Record Exn := mkExn {
  exn_class : ExnClass;
  exn_msg : string
}.

(** A Python call: it returns a value or raises. *)
Inductive Outcome (A : Type) :=
| Return (a : A)
| Raise (e : Exn).
Arguments Return {A} a.
Arguments Raise {A} e.

(** A row of [adk_sessions]; [rec_events] is [json.loads(events_json)].
    Timestamps are the ticks of a clock passed to each operation. *)
Record SessionRecord := mkSessionRecord {
  rec_app : string;
  rec_user : string;
  rec_sid : string;
  rec_events : list EventDict;
  rec_created : nat;
  rec_updated : nat
}.

(** The in-memory ADK [Session] handle. *)
Record Session := mkSession {
  s_app : string;
  s_user : string;
  s_id : string;
  s_events : list Event
}.

Abbreviation DB := (gmap string SessionRecord).

Definition make_session_key (app_name user_id session_id : string) : string :=
  String.append app_name (String.append ":" (String.append user_id (String.append ":" session_id))).

Definition session_key (s : Session) : string := make_session_key (s_app s) (s_user s) (s_id s).

(** The pydantic [ValidationError] a stored event that does not decode
    raises; it is a [ValueError]. *)
Definition validation_error : Exn :=
  mkExn ValueError "validation error for FunctionResponse: Input should be a valid dictionary".

(** [create_session]: returns the stored session when the key exists,
    otherwise inserts an empty row. *)
Definition create_session (now : nat) (db : DB) (app_name user_id session_id : string)
  : DB * Outcome Session :=
  let key := make_session_key app_name user_id session_id in
  match db !! key with
  | Some existing =>
      match load_events (rec_events existing) with
      | Some events => (db, Return (mkSession app_name user_id session_id events))
      | None => (db, Raise validation_error)
      end
  | None =>
      (<[key := mkSessionRecord app_name user_id session_id [] now now]> db,
       Return (mkSession app_name user_id session_id []))
  end.

(** [_get_session_inner]. *)
Definition get_session_inner (db : DB) (app_name user_id session_id : string) : Outcome (option Session) :=
  match db !! make_session_key app_name user_id session_id with
  | Some record =>
      match load_events (rec_events record) with
      | Some events => Return (Some (mkSession app_name user_id session_id events))
      | None => Raise validation_error
      end
  | None => Return None
  end.

(** [append_event]: the row and the handle after the call, and how the call
    ended. Nothing is committed, and the handle is not touched, unless the
    whole body succeeds. *)
Definition append_event (now : nat) (db : DB) (session : Session) (event : Event)
  : DB * Session * Outcome unit :=
  let key := session_key session in
  match db !! key with
  | None => (db, session, Raise (mkExn ValueError (String.append "Session not found: " key)))
  | Some record =>
      match events_json (rec_events record ++ [serialize_event event]) with
      | None => (db, session, Raise (mkExn TypeError "Object is not JSON serializable"))
      | Some events =>
          (<[key := mkSessionRecord (rec_app record) (rec_user record) (rec_sid record)
                      events (rec_created record) now]> db,
           mkSession (s_app session) (s_user session) (s_id session) (s_events session ++ [event]),
           Return tt)
      end
  end.

(* ------------------------------------------------------------------ *)
(** ** [_retry_on_connection_error] *)

Definition ascii_lower (c : ascii) : ascii :=
  let n := nat_of_ascii c in
  if (65 <=? n) && (n <=? 90) then ascii_of_nat (n + 32) else c.

(** [str.lower] on ASCII text. *)
Fixpoint lower (s : string) : string :=
  match s with
  | EmptyString => EmptyString
  | String c s' => String (ascii_lower c) (lower s')
  end.

(** Python's [pat in s]. *)
Fixpoint contains (pat s : string) : bool :=
  String.prefix pat s ||
  match s with
  | EmptyString => false
  | String _ s' => contains pat s'
  end.

(** The exceptions the [except] clause retries. *)
Definition is_connection_error (e : Exn) : bool :=
  match exn_class e with
  | OperationalError =>
      contains "SSL connection has been closed" (exn_msg e) || contains "connection" (lower (exn_msg e))
  | _ => false
  end.

Definition max_retries : nat := 3.
Definition retry_delay : nat := 1.

(** The side effects of the loop: a call of [func], [time.sleep] and
    [engine.dispose()]. *)
Inductive Action := ACall (attempt : nat) | ASleep (secs : nat) | ADispose.

Section Retry.
Context {B : Type}.
(** The [return None] after the loop. *)
Variable none_val : B.
(** What [func()] does on each attempt. *)
Variable func : nat -> Outcome B.

Fixpoint retry_loop (attempts : list nat) : Outcome B * list Action :=
  match attempts with
  | [] => (Return none_val, [])
  | attempt :: rest =>
      match func attempt with
      | Return v => (Return v, [ACall attempt])
      | Raise e =>
          match exn_class e with
          | OperationalError =>
              if is_connection_error e && (attempt <? max_retries - 1) then
                let '(r, tr) := retry_loop rest in
                (r, ACall attempt :: ASleep retry_delay :: ADispose :: tr)
              else (Raise e, [ACall attempt])
          | _ => (Raise e, [ACall attempt])
          end
      end
  end.

Definition retry_on_connection_error : Outcome B * list Action :=
  retry_loop (seq 0 max_retries).

(** Whether attempt [attempt] raises a connection error. *)
Definition retried (attempt : nat) : bool :=
  match func attempt with
  | Raise e => is_connection_error e
  | Return _ => false
  end.
End Retry.

(** [get_session]: [faults i] is the fault, if any, the database connection
    raises on attempt [i]. *)
Definition get_session (faults : nat -> option Exn) (db : DB) (app_name user_id session_id : string)
  : Outcome (option Session) * list Action :=
  retry_on_connection_error None
    (fun i => match faults i with
              | Some e => Raise e
              | None => get_session_inner db app_name user_id session_id
              end).

(* ------------------------------------------------------------------ *)
(** ** [stream_generator] and [stream_with_persistence] (server.py) *)

(** A message of a MongoDB chat session; missing keys are [None]. *)
Record ChatMessage := mkChatMessage {
  cm_role : option string;
  cm_content : option string
}.

(** A [chat_sessions] document as [create_chat_session] writes it; its
    [userId] is always set, so [get_session_messages] can stringify it. *)
Record ChatSessionRecord := mkChatSessionRecord {
  cs_title : string;
  cs_messages : option (list ChatMessage)
}.

(** The [chat_sessions] collection, keyed by [str(_id)]: the 24 lower-case
    hex digits of the document's ObjectId. *)
Abbreviation Mongo := (gmap string ChatSessionRecord).

Definition is_hex_digit (c : ascii) : bool :=
  let n := nat_of_ascii c in
  ((48 <=? n) && (n <=? 57)) || ((65 <=? n) && (n <=? 70)) || ((97 <=? n) && (n <=? 102)).

Fixpoint all_hex (s : string) : bool :=
  match s with
  | EmptyString => true
  | String c s' => is_hex_digit c && all_hex s'
  end.

(** [ObjectId(session_id)]: a string of 24 hex digits names the id whose
    [str()] is that string in lower case; any other string raises
    [InvalidId]. (A 24-character string with whitespace between its digit
    pairs passes [bytes.fromhex] as a shorter id; such a string is treated
    here like an invalid one.) *)
Definition object_id (session_id : string) : option string :=
  if (String.length session_id =? 24) && all_hex session_id then Some (lower session_id) else None.

(** [get_session_messages]: [find_one({"_id": ObjectId(session_id)})];
    [None] when no document matches, and when [ObjectId] raises, which the
    [try] turns into [None]. *)
Definition find_chat_session (mongo : Mongo) (session_id : string) : option ChatSessionRecord :=
  match object_id session_id with
  | Some oid => mongo !! oid
  | None => None
  end.

(** The text-only event built for a hydrated message. *)
Definition message_event (role content : string) : Event :=
  mkEvent role (Some (mkContent (Some role) [PText content])).

(** The hydration loop. *)
Fixpoint hydrate (now : nat) (db : DB) (session : Session) (msgs : list ChatMessage)
  : DB * Session * Outcome unit :=
  match msgs with
  | [] => (db, session, Return tt)
  | msg :: rest =>
      match cm_content msg with
      | Some content =>
          if truthy_str content then
            match cm_role msg with
            | None => (db, session, Raise (mkExn KeyError "role"))
            | Some role =>
                let '(db1, session1, r) := append_event now db session (message_event role content) in
                match r with
                | Return _ => hydrate now db1 session1 rest
                | Raise e => (db1, session1, Raise e)
                end
            end
          else hydrate now db session rest
      | None => hydrate now db session rest
      end
  end.

(** The [try] block of [stream_generator] that prepares the session. *)
Definition setup_session (faults : nat -> option Exn) (now : nat) (db : DB) (mongo : Mongo)
  (user_id session_id : string) : DB * Outcome Session :=
  match fst (get_session faults db "agents" user_id session_id) with
  | Raise e => (db, Raise e)
  | Return (Some existing) => (db, Return existing)
  | Return None =>
      match create_session now db "agents" user_id session_id with
      | (db1, Raise e) => (db1, Raise e)
      | (db1, Return created) =>
          match find_chat_session mongo session_id with
          | Some mongo_session =>
              match cs_messages mongo_session with
              | Some ((_ :: _) as msgs) =>
                  let '(db2, session2, r) := hydrate now db1 created msgs in
                  match r with
                  | Return _ => (db2, Return session2)
                  | Raise e => (db2, Raise e)
                  end
              | _ => (db1, Return created)
              end
          | None => (db1, Return created)
          end
      end
  end.

(** A server-sent frame: [{content}], [{session_id}] or [[DONE]]. *)
Inductive Frame := FContent (s : string) | FSessionId (s : string) | FDone.

Definition part_frames (p : Part) : list Frame :=
  match p with
  | PText s => if truthy_str s then [FContent s] else []
  | _ => []
  end.

Definition event_frames (e : Event) : list Frame :=
  match ev_content e with
  | Some c => flat_map part_frames (c_parts c)
  | None => []
  end.

(** The agent loop as seen by the server: the events it yielded and, when
    it raised, [str(run_error)]. *)
Record AgentRun := mkAgentRun {
  run_events : list Event;
  run_error : option string
}.

Definition setup_error_text : string := "Error: Failed to initialize chat session.".

Definition stream_generator (setup : Outcome Session) (run : AgentRun) : list Frame :=
  match setup with
  | Raise _ => [FContent setup_error_text]
  | Return _ =>
      flat_map event_frames (run_events run)
      ++ match run_error run with
         | Some msg => [FContent (String.append "Error: " msg)]
         | None => []
         end
      ++ [FDone]
  end.

Definition stream_with_persistence (setup : Outcome Session) (run : AgentRun) (session_id : string)
  : list Frame :=
  stream_generator setup run ++ [FSessionId session_id].

(** The whole stream for one request. *)
Definition chat_stream (faults : nat -> option Exn) (now : nat) (db : DB) (mongo : Mongo)
  (user_id session_id : string) (run : AgentRun) : list Frame :=
  stream_with_persistence (snd (setup_session faults now db mongo user_id session_id)) run session_id.

(** Sample histories. *)
Definition sample_call (i : string) : Part := PCall (mkFunctionCall (Some i) "list_files" (VDict [])).
Definition sample_response (i : string) : Part :=
  PResp (mkFunctionResponse (Some i) "list_files" (VDict [(VStr "files", VList [])])).

(** A call answered only after an unrelated user turn. *)
Definition interleaved_history : list Content :=
  [mkContent (Some "model") [sample_call "a"];
   mkContent (Some "user") [PText "hi"];
   mkContent (Some "user") [sample_response "a"]].

(** A call with text that is never answered, and one without text. *)
Definition dangling_history : list Content :=
  [mkContent (Some "user") [PText "list my drive files"];
   mkContent (Some "model") [PText "Looking"; sample_call "b"];
   mkContent (Some "model") [sample_call "c"];
   mkContent (Some "model") [sample_call "d"];
   mkContent (Some "user") [sample_response "d"]].

(* ------------------------------------------------------------------ *)
(** ** Domains of the codec *)

(** A part the storage codec writes and reads back unchanged: non-empty
    text, a call whose id, when present, is non-empty, a response that
    [json.dumps] accepts; call arguments and responses are of their
    pydantic type [Optional[dict[str, Any]]], as in every ADK event. *)
Definition part_in_codec_domain (p : Part) : bool :=
  match p with
  | PText s => truthy_str s
  | PCall fc => match fc_id fc with Some i => truthy_str i | None => true end && pydantic_dict (fc_args fc)
  | PResp fr => encodable (fr_response fr) && pydantic_dict (fr_response fr)
  end.

Definition event_in_codec_domain (e : Event) : bool :=
  match ev_content e with
  | Some c => forallb part_in_codec_domain (c_parts c)
  | None => true
  end.










Definition empty_text_event : Event :=
  mkEvent "model" (Some (mkContent (Some "model") [PText ""; PText "done"])).

Definition tool_turn_event : Event :=
  mkEvent "model" (Some (mkContent (Some "model")
    [PText "Checking"; sample_call "a"; sample_response "a"])).

(* ------------------------------------------------------------------ *)
(** ** Expected results and sample inputs for the store and the server *)

(** The events hydration should replay: one text-only event per message
    with a role and non-empty content, in stored order. *)
Definition hydrated_events (msgs : list ChatMessage) : list Event :=
  flat_map (fun m =>
              match cm_role m, cm_content m with
              | Some role, Some c => if truthy_str c then [message_event role c] else []
              | _, _ => []
              end) msgs.

(** The texts an event streams, one per non-empty text part. *)
Definition part_text (p : Part) : list string :=
  match p with
  | PText s => if truthy_str s then [s] else []
  | _ => []
  end.

Definition event_texts (e : Event) : list string :=
  match ev_content e with
  | Some c => flat_map part_text (c_parts c)
  | None => []
  end.

Definition ssl_closed_fault : Exn :=
  mkExn OperationalError "SSL connection has been closed unexpectedly".

(** The first attempt loses its connection, later ones succeed. *)
Definition closed_then_ok (attempt : nat) : option Exn :=
  match attempt with
  | 0 => Some ssl_closed_fault
  | _ => None
  end.

Definition no_faults (attempt : nat) : option Exn := None.

Definition hi_hello : list ChatMessage :=
  [mkChatMessage (Some "user") (Some "hi"); mkChatMessage (Some "assistant") (Some "hello")].

(** A chat session id, as [create_chat_session] returns it. *)
Definition sample_oid : string := "65a1f0c2e4b0a1b2c3d4e5f6".

Definition mongo_hi_hello : Mongo :=
  {[ sample_oid := mkChatSessionRecord "hi..." (Some hi_hello) ]}.

(** A stored message without a role. *)
Definition mongo_no_role : Mongo :=
  {[ sample_oid := mkChatSessionRecord "hi..." (Some [mkChatMessage None (Some "hi")]) ]}.

Definition sample_session : Session := mkSession "agents" "u1" "s1" [].



(* ------------------------------------------------------------------ *)
(** ** The rest of the session service *)

(** [delete_session]: removes the row when there is one. *)
Definition delete_session (db : DB) (app_name user_id session_id : string) : DB :=
  let key := make_session_key app_name user_id session_id in
  match db !! key with
  | Some _ => delete key db
  | None => db
  end.

(** The [Session] [list_sessions] builds from a row's own columns;
    [None] when one of its events raises. *)
Definition record_session (record : SessionRecord) : option Session :=
  match load_events (rec_events record) with
  | Some events => Some (mkSession (rec_app record) (rec_user record) (rec_sid record) events)
  | None => None
  end.

(** The loop of [list_sessions] over the rows the query returned. *)
Fixpoint record_sessions (rows : list (string * SessionRecord)) : option (list Session) :=
  match rows with
  | [] => Some []
  | kv :: rows' =>
      match record_session kv.2, record_sessions rows' with
      | Some s, Some ss => Some (s :: ss)
      | _, _ => None
      end
  end.

(** The rows of the query [filter_by(app_name=..., user_id=...)]. It has no
    ORDER BY; the model lists the rows in the map's order. *)
Definition matching_rows (db : DB) (app_name user_id : string) : list (string * SessionRecord) :=
  List.filter (fun kv => String.eqb (rec_app kv.2) app_name && String.eqb (rec_user kv.2) user_id)
    (map_to_list db).

(** [list_sessions]. *)
Definition list_sessions (db : DB) (app_name user_id : string) : Outcome (list Session) :=
  match record_sessions (matching_rows db app_name user_id) with
  | Some sessions => Return sessions
  | None => Raise validation_error
  end.

(** A string without the key separator [:]. *)
Fixpoint no_colon (s : string) : bool :=
  match s with
  | EmptyString => true
  | String c s' => negb (Ascii.eqb c ":") && no_colon s'
  end.

(* ------------------------------------------------------------------ *)
(** ** Tool declarations for the backend *)

(** An ADK [Schema]: [sc_type] is [schema.type.value] ([None] when
    [schema.type] is [None]); an unset field is [None]. *)
Inductive Schema := mkSchema {
  sc_type : option string;
  sc_description : option string;
  sc_properties : option (list (string * Schema));
  sc_required : option (list string);
  sc_items : option Schema;
  sc_enum : option (list string)
}.

(** [type_mapping.get(schema_type, "string")]. *)
Definition type_mapping_get (schema_type : string) : string :=
  if String.eqb schema_type "STRING" then "string"
  else if String.eqb schema_type "INTEGER" then "integer"
  else if String.eqb schema_type "NUMBER" then "number"
  else if String.eqb schema_type "BOOLEAN" then "boolean"
  else if String.eqb schema_type "ARRAY" then "array"
  else if String.eqb schema_type "OBJECT" then "object"
  else "string".

(** [schema.type.value if hasattr(schema.type, 'value') else str(schema.type)]. *)
Definition schema_type_str (t : option string) : string :=
  match t with
  | Some v => v
  | None => "None"
  end.

(** [_convert_schema_to_dict] on a schema: the keys in the order they are
    set; each optional key only when the field is truthy. *)
Fixpoint convert_schema (schema : Schema) : PyVal :=
  match schema with
  | mkSchema t d ps r it en =>
      VDict ([(VStr "type", VStr (type_mapping_get (schema_type_str t)))]
             ++ match d with
                | Some ds => if truthy_str ds then [(VStr "description", VStr ds)] else []
                | None => []
                end
             ++ match ps with
                | Some ((_ :: _) as l) =>
                    [(VStr "properties", VDict (map (fun '(k, v) => (VStr k, convert_schema v)) l))]
                | _ => []
                end
             ++ match r with
                | Some ((_ :: _) as l) => [(VStr "required", VList (map VStr l))]
                | _ => []
                end
             ++ match it with
                | Some i => [(VStr "items", convert_schema i)]
                | None => []
                end
             ++ match en with
                | Some ((_ :: _) as l) => [(VStr "enum", VList (map VStr l))]
                | _ => []
                end)
  end.

(** [_convert_schema_to_dict]: [None] for no schema. *)
Definition convert_schema_to_dict (schema : option Schema) : PyVal :=
  match schema with
  | Some s => convert_schema s
  | None => VNone
  end.

Record FunctionDeclaration := mkFunctionDeclaration {
  fd_name : string;
  fd_description : option string;
  fd_parameters : option Schema
}.

(** An entry of [config.tools]: a [types.Tool] with its
    [function_declarations] ([None] when unset), or an object without that
    attribute. *)
Inductive ToolEntry :=
| TTool (decls : option (list FunctionDeclaration))
| TOther.

(** One entry of [openai_tools]. *)
Record OpenAITool := mkOpenAITool {
  ot_name : string;
  ot_description : option string;
  ot_parameters : PyVal
}.

Definition default_parameters : PyVal :=
  VDict [(VStr "type", VStr "object"); (VStr "properties", VDict [])].

(** [self._convert_schema_to_dict(func.parameters) or {...}]. *)
Definition declaration_tool (func : FunctionDeclaration) : OpenAITool :=
  mkOpenAITool (fd_name func) (fd_description func)
    (match convert_schema_to_dict (fd_parameters func) with
     | VNone | VDict [] => default_parameters
     | p => p
     end).

(** The loop over [tools]; [None] when it raises, which it does on a
    [types.Tool] whose [function_declarations] is [None] (iterating [None]). *)
Fixpoint openai_tools (tools : list ToolEntry) : option (list OpenAITool) :=
  match tools with
  | [] => Some []
  | TOther :: rest => openai_tools rest
  | TTool None :: _ => None
  | TTool (Some decls) :: rest =>
      match openai_tools rest with
      | Some ts => Some (map declaration_tool decls ++ ts)
      | None => None
      end
  end.

(** The declarations of the tools that have them. *)
Definition tool_declarations (tools : list ToolEntry) : list FunctionDeclaration :=
  flat_map (fun t => match t with TTool (Some ds) => ds | _ => [] end) tools.

Definition openai_types : list string :=
  ["string"; "integer"; "number"; "boolean"; "array"; "object"].

(** The function responses among a content's parts. *)
Definition part_responses (ps : list Part) : list FunctionResponse :=
  flat_map (fun p => match p with PResp fr => [fr] | _ => [] end) ps.

(* ------------------------------------------------------------------ *)
(** ** MongoDB chat sessions and the chat endpoint *)

(** A session's [messages], empty when the field is absent. *)
Definition stored_messages (r : ChatSessionRecord) : list ChatMessage :=
  match cs_messages r with
  | Some l => l
  | None => []
  end.

(** [add_message_to_session]: [update_one({"_id": ObjectId(session_id)},
    {"$push": ...})] pushes the message onto [messages] (the field is
    created when absent). An id that names no document updates nothing,
    and one that is no ObjectId raises inside the [try]: either way nothing
    changes. The server ignores the boolean result. *)
Definition add_message_to_session (mongo : Mongo) (session_id role content : string) : Mongo :=
  match object_id session_id with
  | Some oid =>
      match mongo !! oid with
      | Some r =>
          <[oid := mkChatSessionRecord (cs_title r)
                     (Some (stored_messages r ++ [mkChatMessage (Some role) (Some content)]))]> mongo
      | None => mongo
      end
  | None => mongo
  end.

(** [full_response] in [stream_with_persistence]: the [content] of every
    frame of [stream_generator], in order; [[DONE]] does not parse as JSON
    and is skipped. *)
Fixpoint frame_contents (fs : list Frame) : string :=
  match fs with
  | [] => ""
  | FContent s :: rest => String.append s (frame_contents rest)
  | _ :: rest => frame_contents rest
  end.

(** The session setup of [stream_generator] as [chat] runs it: after the
    user message has been saved to the chat store. *)
Definition chat_setup (faults : nat -> option Exn) (now : nat) (db : DB) (mongo : Mongo)
  (user_id session_id message : string) : DB * Outcome Session :=
  setup_session faults now db (add_message_to_session mongo session_id "user" message) user_id session_id.

(** [chat] for a request that carries a session id (not empty, not
    ["null"]): save the user message, stream, then save the reply when it
    is not empty. The agent run's own writes to the session store belong to
    the ADK runner and are left out; the result is the chat store after the
    request and the frames sent. *)
Definition chat_with_session (faults : nat -> option Exn) (now : nat) (db : DB) (mongo : Mongo)
  (user_id session_id message : string) (run : AgentRun) : Mongo * list Frame :=
  let mongo1 := add_message_to_session mongo session_id "user" message in
  let setup := snd (chat_setup faults now db mongo user_id session_id message) in
  let full_response := frame_contents (stream_generator setup run) in
  let mongo2 := if truthy_str full_response
                then add_message_to_session mongo1 session_id "assistant" full_response
                else mongo1 in
  (mongo2, stream_with_persistence setup run session_id).

(** Concatenation of a list of strings. *)
Definition concat_all (l : list string) : string := fold_right String.append "" l.

(** A message the cleanup pass does not look at. *)
Definition not_assistant (m : Msg) : bool := negb (String.eqb (m_role m) "assistant").

(** A stored history whose second message has lost its role. *)
Definition mongo_partial : Mongo :=
  {[ sample_oid := mkChatSessionRecord "hi..."
               (Some [mkChatMessage (Some "user") (Some "hi"); mkChatMessage None (Some "oops");
                      mkChatMessage (Some "assistant") (Some "hello")]) ]}.

(** A session store with an empty row for the chat session [sample_oid]. *)
Definition sample_db_oid : DB :=
  {[ make_session_key "agents" "u1" sample_oid := mkSessionRecord "agents" "u1" sample_oid [] 0 0 ]}.

(* ================================================================== *)
(** * Properties *)

Example dangling_history_cleaned :
  option_map (map (fun m => (m_role m, match m_tool_calls m with None => true | Some _ => false end))) (to_backend_messages None dangling_history)
  = Some [("user", true); ("assistant", true); ("assistant", false); ("tool", true)].
Proof. vm_compute. reflexivity. Qed.

(* ------------------------------------------------------------------ *)
(** ** The repair pass *)

Lemma in_tool_response_ids (ms : list Msg) (i : string) :
  In i (tool_response_ids ms) ->
  exists t, In t ms /\ m_role t = "tool" /\ m_tool_call_id t = Some i.
Proof.
  unfold tool_response_ids. intros Hi.
  apply in_flat_map in Hi as [t [Ht Hi]].
  destruct (String.eqb (m_role t) "tool") eqn:Hr; [|contradiction].
  apply String.eqb_eq in Hr.
  destruct (m_tool_call_id t) as [j|] eqn:Hj; [|contradiction].
  destruct (truthy_str j); [|contradiction].
  destruct Hi as [<-|[]]. eauto.
Qed.

Lemma clean_with_keeps_tool (ids : list string) (ms : list Msg) (t : Msg) :
  In t ms -> m_role t = "tool" -> In t (clean_with ids ms).
Proof.
  intros Ht Hr. unfold clean_with. apply in_flat_map. exists t. split; [exact Ht|].
  unfold clean_msg. rewrite Hr. simpl. left. reflexivity.
Qed.

(** Every call left on an assistant message after the cleanup has a tool
    message with its id somewhere in the cleaned list. *)
Lemma clean_messages_calls_answered (ms : list Msg) (m : Msg) (tcs : list ToolCall) (tc : ToolCall) :
  In m (clean_messages ms) -> m_role m = "assistant" -> m_tool_calls m = Some tcs -> In tc tcs ->
  exists t, In t (clean_messages ms) /\ m_role t = "tool" /\ m_tool_call_id t = Some (tc_id tc).
Proof.
  unfold clean_messages. intros Hin Hrole Hcalls Htc.
  assert (Hid : In (tc_id tc) (tool_response_ids ms)).
  { unfold clean_with in Hin. apply in_flat_map in Hin as [m0 [_ Hin]].
    unfold clean_msg in Hin.
    destruct (String.eqb (m_role m0) "assistant") eqn:Ha.
    - destruct (m_tool_calls m0) as [tcs0|] eqn:Hc0.
      + destruct (List.filter (has_response (tool_response_ids ms)) tcs0) as [|k ks] eqn:Hf.
        * destruct (truthy_payload (m_content m0)).
          -- destruct Hin as [<-|[]]. simpl in Hcalls. discriminate.
          -- contradiction.
        * destruct Hin as [<-|[]]. simpl in Hcalls. injection Hcalls as <-.
          rewrite <- Hf in Htc. apply filter_In in Htc as [_ Hh].
          unfold has_response in Hh. apply existsb_exists in Hh as [i [Hi Heq]].
          apply String.eqb_eq in Heq. rewrite Heq. exact Hi.
      + destruct Hin as [<-|[]]. congruence.
    - destruct Hin as [<-|[]]. rewrite Hrole in Ha. discriminate. }
  destruct (in_tool_response_ids _ _ Hid) as [t [Ht [Hr Hi]]].
  exists t. split; [|auto]. apply clean_with_keeps_tool; assumption.
Qed.

Lemma clean_with_app (ids : list string) (l1 l2 : list Msg) :
  clean_with ids (l1 ++ l2) = clean_with ids l1 ++ clean_with ids l2.
Proof. unfold clean_with. apply flat_map_app. Qed.

(** C1: after the repair pass no assistant message keeps a call id that no
    emitted tool message answers; an assistant message all of whose calls
    are filtered out stays in place as plain text (no [tool_calls] key)
    when it has text, and disappears when it has none. *)
Theorem repair_pass_drops_dangling_calls (sys : option string) (cs : list Content) (out : list Msg) :
  to_backend_messages sys cs = Some out ->
  (forall m tcs tc, In m out -> m_role m = "assistant" -> m_tool_calls m = Some tcs -> In tc tcs ->
     exists t, In t out /\ m_role t = "tool" /\ m_tool_call_id t = Some (tc_id tc)) /\
  exists ms, build_messages sys cs = Some ms /\ out = clean_messages ms /\
    forall pre m post tcs,
      ms = pre ++ m :: post -> m_role m = "assistant" -> m_tool_calls m = Some tcs ->
      List.filter (has_response (tool_response_ids ms)) tcs = [] ->
      out = clean_with (tool_response_ids ms) pre
            ++ (if truthy_payload (m_content m)
                then [mkMsg (m_role m) (m_content m) None (m_tool_call_id m)] else [])
            ++ clean_with (tool_response_ids ms) post.
Proof.
  unfold to_backend_messages. intros H.
  destruct (build_messages sys cs) as [ms|] eqn:Hb; [|discriminate].
  injection H as <-. split.
  - intros m tcs tc. apply clean_messages_calls_answered.
  - exists ms. split; [reflexivity|]. split; [reflexivity|].
    intros pre m post tcs Hms Hrole Hcalls Hf.
    unfold clean_messages. set (ids := tool_response_ids ms). fold ids in Hf.
    clearbody ids. rewrite Hms. rewrite clean_with_app. f_equal.
    change (m :: post) with ([m] ++ post). rewrite clean_with_app. f_equal.
    unfold clean_with. simpl. rewrite app_nil_r. unfold clean_msg.
    rewrite Hrole, Hcalls, Hf. reflexivity.
Qed.

Lemma repair_pass_drops_dangling_calls_witness :
  let out := match to_backend_messages None dangling_history with Some o => o | None => [] end in
  to_backend_messages None dangling_history = Some out /\
  ((forall m tcs tc, In m out -> m_role m = "assistant" -> m_tool_calls m = Some tcs -> In tc tcs ->
     exists t, In t out /\ m_role t = "tool" /\ m_tool_call_id t = Some (tc_id tc)) /\
   exists ms, build_messages None dangling_history = Some ms /\ out = clean_messages ms /\
    forall pre m post tcs,
      ms = pre ++ m :: post -> m_role m = "assistant" -> m_tool_calls m = Some tcs ->
      List.filter (has_response (tool_response_ids ms)) tcs = [] ->
      out = clean_with (tool_response_ids ms) pre
            ++ (if truthy_payload (m_content m)
                then [mkMsg (m_role m) (m_content m) None (m_tool_call_id m)] else [])
            ++ clean_with (tool_response_ids ms) post).
Proof.
  intro out. assert (H : to_backend_messages None dangling_history = Some out)
    by (vm_compute; reflexivity).
  split; [exact H | exact (repair_pass_drops_dangling_calls None dangling_history out H)].
Defined.

(** C2 (as the code has it): every call id left on an assistant message is
    answered by a tool message somewhere in the list, not necessarily right
    after it. *)
Theorem repair_pass_calls_answered_somewhere (sys : option string) (cs : list Content) (out : list Msg) :
  to_backend_messages sys cs = Some out ->
  forall m tcs tc, In m out -> m_role m = "assistant" -> m_tool_calls m = Some tcs -> In tc tcs ->
    exists t, In t out /\ m_role t = "tool" /\ m_tool_call_id t = Some (tc_id tc).
Proof.
  unfold to_backend_messages. intros H.
  destruct (build_messages sys cs) as [ms|]; [|discriminate].
  injection H as <-. apply clean_messages_calls_answered.
Qed.

Lemma repair_pass_calls_answered_somewhere_witness :
  let out := match to_backend_messages None interleaved_history with Some o => o | None => [] end in
  to_backend_messages None interleaved_history = Some out /\
  forall m tcs tc, In m out -> m_role m = "assistant" -> m_tool_calls m = Some tcs -> In tc tcs ->
    exists t, In t out /\ m_role t = "tool" /\ m_tool_call_id t = Some (tc_id tc).
Proof.
  intro out. assert (H : to_backend_messages None interleaved_history = Some out)
    by (vm_compute; reflexivity).
  split; [exact H | exact (repair_pass_calls_answered_somewhere None interleaved_history out H)].
Defined.

(** C2 as stated fails: a call answered after an unrelated user turn keeps
    its [tool_calls], and the next message is not a tool message. *)
Lemma repair_pass_not_contiguous :
  ~ (forall sys cs out, to_backend_messages sys cs = Some out -> backend_ok out = true).
Proof.
  intros H.
  assert (Hout : to_backend_messages None interleaved_history
                 = Some (match to_backend_messages None interleaved_history with
                         | Some o => o | None => [] end)) by (vm_compute; reflexivity).
  specialize (H _ _ _ Hout). vm_compute in H. discriminate.
Qed.

(* ------------------------------------------------------------------ *)
(** ** Python values: induction, encoding *)


Lemma normalize_response_encodable_id (v : PyVal) :
  encodable v = true -> normalize_response v = v.
Proof.
  intros H. unfold normalize_response.
  destruct v; simpl in *; try discriminate; rewrite ?H; reflexivity.
Qed.


(* ------------------------------------------------------------------ *)
(** ** The event codec *)

Lemma deserialize_serialize_parts (ps : list Part) :
  forallb part_in_codec_domain ps = true ->
  deserialize_parts (map serialize_part ps) = Some ps.
Proof.
  induction ps as [|p ps IH]; intros H; [reflexivity|].
  simpl in H. apply andb_true_iff in H as [Hp Hps].
  cbn [map deserialize_parts]. rewrite (IH Hps).
  destruct p as [s | [i n a] | [i n r]]; simpl in *.
  - rewrite Hp. reflexivity.
  - apply andb_true_iff in Hp as [Hi Ha].
    rewrite Ha. destruct i as [i|]; [rewrite Hi|]; reflexivity.
  - apply andb_true_iff in Hp as [He Hd].
    rewrite (normalize_response_encodable_id r He), Hd. reflexivity.
Qed.

Lemma event_codec_roundtrip (e : Event) :
  event_in_codec_domain e = true -> deserialize_event (serialize_event e) = Some e.
Proof.
  destruct e as [author [[role ps]|]]; unfold event_in_codec_domain, serialize_event, deserialize_event;
    simpl; intros H; [|reflexivity].
  rewrite (deserialize_serialize_parts ps H). reflexivity.
Qed.

(** C3 (as the code has it): an event whose text parts are non-empty, whose
    call ids are non-empty when present, whose responses [json.dumps]
    accepts, and whose call arguments and responses are dicts with string
    keys or [None] (their pydantic type), is read back by
    [_deserialize_event] exactly as it was: same author, same role, same
    parts in the same order. *)
Theorem codec_roundtrip (e : Event) :
  event_in_codec_domain e = true -> deserialize_event (serialize_event e) = Some e.
Proof. exact (event_codec_roundtrip e). Qed.

Lemma codec_roundtrip_witness :
  event_in_codec_domain tool_turn_event = true
  /\ deserialize_event (serialize_event tool_turn_event) = Some tool_turn_event.
Proof.
  split; [vm_compute; reflexivity | apply codec_roundtrip; vm_compute; reflexivity].
Defined.

(** C3 as stated fails: an empty text part is written as [{}] and dropped on
    the way back. *)
Lemma codec_drops_empty_text :
  deserialize_event (serialize_event empty_text_event)
  = Some (mkEvent "model" (Some (mkContent (Some "model") [PText "done"])))
  /\ deserialize_event (serialize_event empty_text_event) <> Some empty_text_event.
Proof. split; [reflexivity | vm_compute; discriminate]. Qed.

(* ------------------------------------------------------------------ *)
(** ** Tool-response normalization *)





(* ------------------------------------------------------------------ *)
(** ** The JSON text column *)




Lemma events_json_app (l1 l2 : list EventDict) :
  events_json (l1 ++ l2)
  = match events_json l1, events_json l2 with
    | Some a, Some b => Some (a ++ b)
    | _, _ => None
    end.
Proof.
  induction l1 as [|d l1 IH]; simpl.
  - destruct (events_json l2); reflexivity.
  - rewrite IH. destruct (event_json d), (events_json l1), (events_json l2); reflexivity.
Qed.




(* ------------------------------------------------------------------ *)
(** ** The session table *)

Lemma load_events_app (l1 l2 : list EventDict) :
  load_events (l1 ++ l2)
  = match load_events l1, load_events l2 with
    | Some a, Some b => Some (a ++ b)
    | _, _ => None
    end.
Proof.
  induction l1 as [|d l1 IH]; simpl.
  - destruct (load_events l2); reflexivity.
  - rewrite IH. destruct (deserialize_event d), (load_events l1), (load_events l2); reflexivity.
Qed.


(** A read of the table raises nothing but the [ValidationError] of an
    event that does not decode. *)
Lemma get_session_inner_raises (db : DB) (app_name user_id session_id : string) (e : Exn) :
  get_session_inner db app_name user_id session_id = Raise e -> e = validation_error.
Proof.
  unfold get_session_inner. destruct (db !! _); [destruct (load_events _)|]; congruence.
Qed.





(** C10: an append on a handle whose row is absent raises before touching
    anything: the table and the handle are returned as they were. *)
Theorem append_missing_record_atomic (now : nat) (db : DB) (session : Session) (e : Event) :
  db !! session_key session = None ->
  append_event now db session e
  = (db, session, Raise (mkExn ValueError (String.append "Session not found: " (session_key session)))).
Proof. intros H. unfold append_event. rewrite H. reflexivity. Qed.

Lemma append_missing_record_atomic_witness :
  (∅ : DB) !! session_key sample_session = None
  /\ append_event 1 ∅ sample_session tool_turn_event
     = (∅, sample_session,
        Raise (mkExn ValueError (String.append "Session not found: " (session_key sample_session)))).
Proof.
  assert (H : (∅ : DB) !! session_key sample_session = None) by apply lookup_empty.
  split; [exact H | exact (append_missing_record_atomic 1 ∅ sample_session tool_turn_event H)].
Defined.


(* ------------------------------------------------------------------ *)
(** ** Retry on connection errors *)

Section RetryProofs.
Context {B : Type}.
Variable none_val : B.
Variable func : nat -> Outcome B.

Lemma retry_loop_cons (attempt : nat) (rest : list nat) :
  retry_loop none_val func (attempt :: rest)
  = match func attempt with
    | Return v => (Return v, [ACall attempt])
    | Raise e =>
        if is_connection_error e && (attempt <? max_retries - 1) then
          let '(r, tr) := retry_loop none_val func rest in
          (r, ACall attempt :: ASleep retry_delay :: ADispose :: tr)
        else (Raise e, [ACall attempt])
    end.
Proof.
  simpl. destruct (func attempt) as [v|e]; [reflexivity|].
  unfold is_connection_error. destruct (exn_class e); reflexivity.
Qed.

Lemma retried_spec (attempt : nat) :
  retried func attempt = true <-> exists e, func attempt = Raise e /\ is_connection_error e = true.
Proof.
  unfold retried. destruct (func attempt) as [v|e]; split.
  - discriminate.
  - intros [e [H _]]. discriminate.
  - intros H. eauto.
  - intros [e' [H1 H2]]. injection H1 as <-. exact H2.
Qed.

End RetryProofs.

Lemma retry_step_continue {B} (none_val : B) (func : nat -> Outcome B) (attempt : nat) (rest : list nat) :
  retried func attempt = true -> attempt < max_retries - 1 ->
  retry_loop none_val func (attempt :: rest)
  = (fst (retry_loop none_val func rest),
     ACall attempt :: ASleep retry_delay :: ADispose :: snd (retry_loop none_val func rest)).
Proof.
  intros Hr Hlt. rewrite retry_loop_cons. unfold retried in Hr.
  destruct (func attempt) as [v|e]; [discriminate|].
  rewrite Hr. apply Nat.ltb_lt in Hlt. rewrite Hlt. simpl.
  destruct (retry_loop none_val func rest). reflexivity.
Qed.

Lemma retry_step_stop {B} (none_val : B) (func : nat -> Outcome B) (attempt : nat) (rest : list nat) :
  (retried func attempt = false \/ max_retries - 1 <= attempt) ->
  retry_loop none_val func (attempt :: rest) = (func attempt, [ACall attempt]).
Proof.
  intros H. rewrite retry_loop_cons. unfold retried in H.
  destruct (func attempt) as [v|e]; [reflexivity|].
  destruct H as [H|H].
  - rewrite H. reflexivity.
  - assert (Hb : (attempt <? max_retries - 1) = false) by (apply Nat.ltb_ge; exact H).
    rewrite Hb, andb_false_r. reflexivity.
Qed.

(** C7: [_retry_on_connection_error] calls [func] at most three times;
    between two calls it sleeps one second and disposes of the engine; it
    retries only connection errors, and returns or raises what the last
    call did. In particular a [get_session] whose first attempt loses its
    SSL connection and whose second succeeds returns the second result,
    and any other error propagates from the attempt that raised it. *)
Theorem retry_policy {B : Type} (none_val : B) :
  (forall func : nat -> Outcome B,
     exists k, k < max_retries
       /\ retry_on_connection_error none_val func
          = (func k, flat_map (fun i => [ACall i; ASleep retry_delay; ADispose]) (seq 0 k) ++ [ACall k])
       /\ (forall i, i < k -> exists e, func i = Raise e /\ is_connection_error e = true)
       /\ (k < max_retries - 1 -> retried func k = false))
  /\ (forall (func : nat -> Outcome B) e,
        func 0 = Raise e -> is_connection_error e = false ->
        retry_on_connection_error none_val func = (Raise e, [ACall 0]))
  /\ (forall db app_name user_id session_id,
        get_session closed_then_ok db app_name user_id session_id
        = (get_session_inner db app_name user_id session_id,
           [ACall 0; ASleep 1; ADispose; ACall 1])).
Proof.
  split; [|split].
  - intros func. unfold retry_on_connection_error. change (seq 0 max_retries) with [0; 1; 2].
    destruct (retried func 0) eqn:R0.
    + rewrite retry_step_continue by (auto || (unfold max_retries; lia)).
      destruct (retried func 1) eqn:R1.
      * rewrite retry_step_continue by (auto || (unfold max_retries; lia)).
        rewrite retry_step_stop by (right; unfold max_retries; lia). cbn [fst snd].
        exists 2. split; [unfold max_retries; lia|]. split; [reflexivity|]. split.
        -- intros i Hi. apply retried_spec.
           destruct i as [|[|i]]; [exact R0 | exact R1 | lia].
        -- unfold max_retries. lia.
      * rewrite retry_step_stop by (left; exact R1). cbn [fst snd].
        exists 1. split; [unfold max_retries; lia|]. split; [reflexivity|]. split.
        -- intros i Hi. apply retried_spec. destruct i; [exact R0 | lia].
        -- intros _. exact R1.
    + rewrite retry_step_stop by (left; exact R0).
      exists 0. split; [unfold max_retries; lia|]. split; [reflexivity|]. split.
      * intros i Hi. lia.
      * intros _. exact R0.
  - intros func e H0 He. unfold retry_on_connection_error. change (seq 0 max_retries) with [0; 1; 2].
    rewrite retry_step_stop; [rewrite H0; reflexivity|].
    left. unfold retried. rewrite H0. exact He.
  - intros db app_name user_id session_id. unfold get_session, retry_on_connection_error.
    cbn [seq max_retries retry_loop closed_then_ok].
    destruct (get_session_inner db app_name user_id session_id) as [v|e] eqn:E; [reflexivity|].
    rewrite (get_session_inner_raises _ _ _ _ _ E). reflexivity.
Qed.

(* ------------------------------------------------------------------ *)
(** ** Session setup and hydration *)

Lemma get_session_first_attempt (faults : nat -> option Exn) (db : DB) (app_name user_id session_id : string) :
  faults 0 = None ->
  get_session faults db app_name user_id session_id
  = (get_session_inner db app_name user_id session_id, [ACall 0]).
Proof.
  intros H. unfold get_session, retry_on_connection_error.
  change (seq 0 max_retries) with [0; 1; 2].
  rewrite retry_step_stop; [cbn beta; rewrite H; reflexivity|].
  left. unfold retried. cbn beta. rewrite H.
  destruct (get_session_inner db app_name user_id session_id) as [v|e] eqn:E; [reflexivity|].
  rewrite (get_session_inner_raises _ _ _ _ _ E). reflexivity.
Qed.

Lemma message_event_json (role content : string) :
  event_json (serialize_event (message_event role content))
  = Some (serialize_event (message_event role content)).
Proof. unfold serialize_event, event_json. simpl. destruct (truthy_str content); reflexivity. Qed.

Lemma hydrate_replays (now : nat) (msgs : list ChatMessage) :
  forall (db : DB) (session : Session) (r : SessionRecord) (evs : list Event),
  db !! session_key session = Some r ->
  events_json (rec_events r) = Some (rec_events r) ->
  load_events (rec_events r) = Some evs ->
  Forall (fun m => cm_role m <> None) msgs ->
  exists db' r',
    hydrate now db session msgs
    = (db', mkSession (s_app session) (s_user session) (s_id session)
              (s_events session ++ hydrated_events msgs), Return tt)
    /\ db' !! session_key session = Some r'
    /\ events_json (rec_events r') = Some (rec_events r')
    /\ load_events (rec_events r') = Some (evs ++ hydrated_events msgs).
Proof.
  induction msgs as [|m rest IH]; intros db session r evs Hr Hj Hl Hroles.
  - exists db, r. simpl. rewrite !app_nil_r. destruct session. repeat split; assumption.
  - inversion Hroles as [|m' rest' Hrole Hrest]; subst m' rest'.
    destruct (cm_role m) as [role|] eqn:Er; [|contradiction].
    simpl. rewrite Er.
    destruct (cm_content m) as [c|] eqn:Ec;
      [destruct (truthy_str c) eqn:Et|].
    + (* a message that is replayed *)
      set (ev := message_event role c).
      assert (Hjs : events_json (rec_events r ++ [serialize_event ev])
                    = Some (rec_events r ++ [serialize_event ev])).
      { rewrite events_json_app, Hj. cbn [events_json]. unfold ev. rewrite message_event_json. reflexivity. }
      unfold append_event. rewrite Hr, Hjs.
      set (r1 := mkSessionRecord (rec_app r) (rec_user r) (rec_sid r)
                   (rec_events r ++ [serialize_event ev]) (rec_created r) now).
      set (session1 := mkSession (s_app session) (s_user session) (s_id session)
                         (s_events session ++ [ev])).
      assert (Hr1 : <[session_key session := r1]> db !! session_key session1 = Some r1)
        by apply lookup_insert_eq.
      assert (Hl1 : load_events (rec_events r1) = Some (evs ++ [ev])).
      { unfold r1. cbn [rec_events]. rewrite load_events_app, Hl. cbn [load_events].
        rewrite (event_codec_roundtrip ev); [reflexivity|].
        unfold event_in_codec_domain, ev, message_event. simpl. rewrite Et. reflexivity. }
      destruct (IH _ session1 r1 _ Hr1 Hjs Hl1 Hrest) as [db' [r' [Hh [Hl' [Hj' Hm]]]]].
      exists db', r'. rewrite Hh. simpl.
      split; [rewrite <- app_assoc; reflexivity|].
      split; [exact Hl'|]. split; [exact Hj'|].
      rewrite Hm, <- app_assoc. reflexivity.
    + (* empty content: skipped *)
      destruct (IH db session r evs Hr Hj Hl Hrest) as [db' [r' H]]. exists db', r'. exact H.
    + destruct (IH db session r evs Hr Hj Hl Hrest) as [db' [r' H]]. exists db', r'. exact H.
Qed.

(** C8: when the durable store has no row for the session and MongoDB
    holds a non-empty message list for it, setup creates the session and
    replays, in stored order, one text-only event per message with
    non-empty content; both the handle and a later read show exactly those
    events. *)
Theorem hydration_replays_secondary_messages (faults : nat -> option Exn) (now : nat) (db : DB)
  (mongo : Mongo) (user_id session_id : string) (record : ChatSessionRecord) (msgs : list ChatMessage) :
  faults 0 = None ->
  db !! make_session_key "agents" user_id session_id = None ->
  find_chat_session mongo session_id = Some record ->
  cs_messages record = Some msgs ->
  msgs <> [] ->
  Forall (fun m => cm_role m <> None) msgs ->
  exists db' session,
    setup_session faults now db mongo user_id session_id = (db', Return session)
    /\ s_events session = hydrated_events msgs
    /\ get_session_inner db' "agents" user_id session_id
       = Return (Some (mkSession "agents" user_id session_id (hydrated_events msgs))).
Proof.
  intros Hf Hdb Hm Hmsgs Hne Hroles.
  unfold setup_session. rewrite (get_session_first_attempt _ _ _ _ _ Hf). simpl fst.
  unfold get_session_inner at 1. rewrite Hdb.
  unfold create_session. rewrite Hdb. rewrite Hm, Hmsgs.
  destruct msgs as [|m0 rest]; [contradiction|].
  set (r0 := mkSessionRecord "agents" user_id session_id [] now now).
  set (created := mkSession "agents" user_id session_id []).
  assert (Hr0 : <[make_session_key "agents" user_id session_id := r0]> db !! session_key created = Some r0)
    by apply lookup_insert_eq.
  destruct (hydrate_replays now (m0 :: rest) _ created r0 [] Hr0 eq_refl eq_refl Hroles)
    as [db' [r' [Hh [Hl [_ Hmap]]]]].
  rewrite Hh. exists db', (mkSession "agents" user_id session_id ([] ++ hydrated_events (m0 :: rest))).
  split; [reflexivity|]. split; [reflexivity|].
  unfold get_session_inner. change (make_session_key "agents" user_id session_id) with (session_key created).
  rewrite Hl, Hmap. reflexivity.
Qed.

Lemma hydration_replays_secondary_messages_witness :
  no_faults 0 = None
  /\ (∅ : DB) !! make_session_key "agents" "u1" sample_oid = None
  /\ find_chat_session mongo_hi_hello sample_oid = Some (mkChatSessionRecord "hi..." (Some hi_hello))
  /\ cs_messages (mkChatSessionRecord "hi..." (Some hi_hello)) = Some hi_hello
  /\ hi_hello <> []
  /\ Forall (fun m => cm_role m <> None) hi_hello
  /\ exists db' session,
       setup_session no_faults 0 ∅ mongo_hi_hello "u1" sample_oid = (db', Return session)
       /\ s_events session = hydrated_events hi_hello
       /\ get_session_inner db' "agents" "u1" sample_oid
          = Return (Some (mkSession "agents" "u1" sample_oid (hydrated_events hi_hello))).
Proof.
  assert (H1 : no_faults 0 = None) by reflexivity.
  assert (H2 : (∅ : DB) !! make_session_key "agents" "u1" sample_oid = None) by apply lookup_empty.
  assert (H3 : find_chat_session mongo_hi_hello sample_oid = Some (mkChatSessionRecord "hi..." (Some hi_hello)))
    by (vm_compute; reflexivity).
  assert (H4 : cs_messages (mkChatSessionRecord "hi..." (Some hi_hello)) = Some hi_hello) by reflexivity.
  assert (H5 : hi_hello <> []) by discriminate.
  assert (H6 : Forall (fun m => cm_role m <> None) hi_hello)
    by (repeat constructor; discriminate).
  repeat (split; [assumption|]).
  exact (hydration_replays_secondary_messages no_faults 0 ∅ mongo_hi_hello "u1" sample_oid _ hi_hello
           H1 H2 H3 H4 H5 H6).
Defined.

(** The hydration scenario end to end: two text events, and the messages
    the model then receives. *)
Example hydration_scenario :
  hydrated_events hi_hello = [message_event "user" "hi"; message_event "assistant" "hello"]
  /\ to_backend_messages None (flat_map (fun e => match ev_content e with Some c => [c] | None => [] end)
                                 (hydrated_events hi_hello))
     = Some [mkMsg "user" (Some (PlStr "hi")) None None; mkMsg "assistant" (Some (PlStr "hello")) None None].
Proof. split; reflexivity. Qed.

(* ------------------------------------------------------------------ *)
(** ** The frames of the chat stream *)

Lemma event_frames_texts (e : Event) : event_frames e = map FContent (event_texts e).
Proof.
  unfold event_frames, event_texts. destruct (ev_content e) as [c|]; [|reflexivity].
  induction (c_parts c) as [|p ps IH]; [reflexivity|].
  simpl. rewrite IH, map_app. f_equal.
  destruct p as [s| |]; simpl; [destruct (truthy_str s)|..]; reflexivity.
Qed.

Lemma flat_map_event_frames (evs : list Event) :
  flat_map event_frames evs = map FContent (flat_map event_texts evs).
Proof.
  induction evs as [|e evs IH]; [reflexivity|].
  simpl. rewrite IH, map_app, event_frames_texts. reflexivity.
Qed.

(** Every stream is a run of content frames, then the end-of-stream
    sentinel when the session was set up, then the session_id frame, which
    is the last frame. A failed agent run contributes one error content
    frame after the frames of the events it yielded; a failed setup
    contributes the single setup error frame and no sentinel. *)
Theorem stream_frames_shape (setup : Outcome Session) (run : AgentRun) (session_id : string) :
  exists contents mid,
    stream_with_persistence setup run session_id
    = map FContent contents ++ mid ++ [FSessionId session_id]
    /\ (mid = [] \/ mid = [FDone])
    /\ (forall s, setup = Return s ->
          mid = [FDone]
          /\ contents = flat_map event_texts (run_events run)
                        ++ match run_error run with
                           | Some msg => [String.append "Error: " msg]
                           | None => []
                           end)
    /\ (forall e, setup = Raise e -> mid = [] /\ contents = [setup_error_text]).
Proof.
  unfold stream_with_persistence, stream_generator. destruct setup as [s|e].
  - exists (flat_map event_texts (run_events run)
            ++ match run_error run with
               | Some msg => [String.append "Error: " msg]
               | None => []
               end), [FDone].
    split.
    + rewrite map_app, flat_map_event_frames, <- !app_assoc.
      destruct (run_error run); reflexivity.
    + split; [right; reflexivity|]. split; [intros s' _; split; reflexivity|].
      intros e' H; discriminate.
  - exists [setup_error_text], []. split; [reflexivity|].
    split; [left; reflexivity|]. split; [intros s' H; discriminate|].
    intros e' _; split; reflexivity.
Qed.

(** C9 fails, and the code is at fault. A request whose session setup
    fails (here a MongoDB message without a role, on a session the store
    does not have) gets the setup error frame and the session_id frame,
    and never the end-of-stream sentinel; this holds for every setup
    failure. The agent-loop failure path does send the sentinel, and
    there, as on success, the session_id frame comes after it. *)
Lemma setup_failure_stream_no_sentinel :
  chat_stream no_faults 0 ∅ mongo_no_role "u1" sample_oid (mkAgentRun [] None)
  = [FContent setup_error_text; FSessionId sample_oid]
  /\ (forall e run session_id,
        stream_with_persistence (Raise e) run session_id = [FContent setup_error_text; FSessionId session_id]
        /\ ~ In FDone (stream_with_persistence (Raise e) run session_id))
  /\ chat_stream no_faults 0 ∅ ∅ "u1" sample_oid (mkAgentRun [] (Some "quota"))
     = [FContent "Error: quota"; FDone; FSessionId sample_oid].
Proof.
  split; [vm_compute; reflexivity|]. split; [|vm_compute; reflexivity].
  intros e run session_id. split; [reflexivity|].
  simpl. intros [H|[H|[]]]; discriminate.
Qed.

(* ------------------------------------------------------------------ *)
(** ** Deleting and listing sessions; the session key *)

(** [delete_session] removes exactly the row of its key: a later read of
    those ids finds nothing, and every other row is as before. *)
Theorem delete_session_removes (db : DB) (app_name user_id session_id : string) :
  get_session_inner (delete_session db app_name user_id session_id) app_name user_id session_id = Return None
  /\ (forall k, k <> make_session_key app_name user_id session_id ->
        delete_session db app_name user_id session_id !! k = db !! k).
Proof.
  unfold delete_session, get_session_inner.
  destruct (db !! make_session_key app_name user_id session_id) as [r|] eqn:E.
  - split; [rewrite lookup_delete_eq; reflexivity|].
    intros k Hk. apply lookup_delete_ne. congruence.
  - split; [rewrite E; reflexivity | reflexivity].
Qed.

(** After [delete_session], [create_session] for the same ids starts an
    empty event log (it no longer finds the old row), and a read agrees. *)
Theorem delete_then_create_empty (now : nat) (db : DB) (app_name user_id session_id : string) :
  let db1 := delete_session db app_name user_id session_id in
  snd (create_session now db1 app_name user_id session_id) = Return (mkSession app_name user_id session_id [])
  /\ get_session_inner (fst (create_session now db1 app_name user_id session_id)) app_name user_id session_id
     = Return (Some (mkSession app_name user_id session_id [])).
Proof.
  cbv zeta.
  assert (Hd : delete_session db app_name user_id session_id !! make_session_key app_name user_id session_id = None).
  { unfold delete_session. destruct (db !! _) eqn:E; [apply lookup_delete_eq | exact E]. }
  unfold create_session. rewrite Hd. split; [reflexivity|].
  unfold get_session_inner. simpl. rewrite lookup_insert_eq. reflexivity.
Qed.

Lemma NoDup_fst_filter {A B} (f : A * B -> bool) (l : list (A * B)) :
  NoDup (map fst l) -> NoDup (map fst (List.filter f l)).
Proof.
  induction l as [|[a b] l IH]; simpl; intros H; [exact H|].
  apply NoDup_cons in H as [Hn H].
  destruct (f (a, b)); simpl; [|exact (IH H)].
  apply NoDup_cons. split; [|exact (IH H)].
  intros Hin. apply Hn. apply list_elem_of_In in Hin. apply list_elem_of_In.
  apply in_map_iff in Hin as [[a' b'] [Ha Hin]]. simpl in Ha. subst a'.
  apply filter_In in Hin as [Hin _]. apply in_map_iff. exists (a, b'). split; [reflexivity | exact Hin].
Qed.

Lemma record_sessions_some (rows : list (string * SessionRecord)) (sessions : list Session) :
  record_sessions rows = Some sessions ->
  Forall2 (fun kv s => exists events, load_events (rec_events kv.2) = Some events
                         /\ s = mkSession (rec_app kv.2) (rec_user kv.2) (rec_sid kv.2) events)
    rows sessions.
Proof.
  revert sessions. induction rows as [|kv rows IH]; simpl; intros sessions H.
  - injection H as <-. constructor.
  - unfold record_session in H.
    destruct (load_events (rec_events kv.2)) as [evs|] eqn:L; [|discriminate].
    destruct (record_sessions rows) as [ss|]; [|discriminate].
    injection H as <-. constructor; [exists evs; split; [exact L | reflexivity] | apply IH; reflexivity].
Qed.

Lemma record_sessions_none (rows : list (string * SessionRecord)) :
  record_sessions rows = None <-> exists kv, In kv rows /\ load_events (rec_events kv.2) = None.
Proof.
  induction rows as [|kv rows IH]; simpl.
  - split; [discriminate | intros [kv [[] _]]].
  - unfold record_session. destruct (load_events (rec_events kv.2)) as [evs|] eqn:L.
    + destruct (record_sessions rows) as [ss|] eqn:R.
      * split; [discriminate|]. intros [kv' [[<-|Hin] Hl]]; [congruence|].
        assert (Hx : Some ss = None) by (apply IH; exists kv'; split; assumption). discriminate.
      * split; [|reflexivity]. intros _.
        destruct (proj1 IH eq_refl) as [kv' [Hin Hl]]. exists kv'. split; [right; exact Hin | exact Hl].
    + split; [|reflexivity]. intros _. exists kv. split; [left; reflexivity | exact L].
Qed.

Lemma in_matching_rows (db : DB) (app_name user_id key : string) (record : SessionRecord) :
  In (key, record) (matching_rows db app_name user_id)
  <-> db !! key = Some record /\ rec_app record = app_name /\ rec_user record = user_id.
Proof.
  unfold matching_rows. rewrite filter_In. simpl.
  rewrite andb_true_iff, !String.eqb_eq, <- list_elem_of_In, elem_of_map_to_list. tauto.
Qed.

(** [list_sessions db app user] builds one session per row whose app and
    user columns are [app] and [user], each from the row's own columns and
    its decoded events; it raises pydantic's [ValidationError], and
    nothing else, exactly when one of those rows holds an event that does
    not decode. *)
Theorem list_sessions_spec (db : DB) (app_name user_id : string) :
  (forall sessions,
     list_sessions db app_name user_id = Return sessions ->
     exists rows : list (string * SessionRecord),
       NoDup (map fst rows)
       /\ (forall key record,
             In (key, record) rows
             <-> db !! key = Some record /\ rec_app record = app_name /\ rec_user record = user_id)
       /\ Forall2 (fun kv s => exists events, load_events (rec_events kv.2) = Some events
                               /\ s = mkSession (rec_app kv.2) (rec_user kv.2) (rec_sid kv.2) events)
            rows sessions)
  /\ (list_sessions db app_name user_id = Raise validation_error
      <-> exists key record,
            db !! key = Some record /\ rec_app record = app_name /\ rec_user record = user_id
            /\ load_events (rec_events record) = None)
  /\ (forall e, list_sessions db app_name user_id = Raise e -> e = validation_error).
Proof.
  unfold list_sessions. split; [|split].
  - intros sessions H.
    destruct (record_sessions (matching_rows db app_name user_id)) as [ss|] eqn:R; [|discriminate].
    injection H as <-. exists (matching_rows db app_name user_id). split; [|split].
    + apply NoDup_fst_filter. exact (NoDup_fst_map_to_list db).
    + apply in_matching_rows.
    + apply record_sessions_some. exact R.
  - destruct (record_sessions (matching_rows db app_name user_id)) as [ss|] eqn:R.
    + split; [discriminate|]. intros [key [record [Hr [Ha [Hu Hl]]]]].
      assert (Hx : Some ss = None).
      { rewrite <- R. apply record_sessions_none. exists (key, record). split; [|exact Hl].
        apply in_matching_rows. auto. }
      discriminate.
    + split; [|reflexivity]. intros _.
      destruct (proj1 (record_sessions_none _) R) as [[key record] [Hin Hl]].
      apply in_matching_rows in Hin as [Hr [Ha Hu]]. exists key, record. auto.
  - intros e H. destruct (record_sessions _); congruence.
Qed.

Lemma string_append_assoc (a b c : string) :
  String.append a (String.append b c) = String.append (String.append a b) c.
Proof.
  induction a as [|x a IH]; [reflexivity|].
  change (String x (String.append a (String.append b c)) = String x (String.append (String.append a b) c)).
  rewrite IH. reflexivity.
Qed.

(** The key [app:user:session] is not injective: the ids [(a:b, c, d)] and
    [(a, b:c, d)] share a row, so a session created under the first is read
    back under the second. *)
Theorem session_key_collision (a b c d : string) :
  make_session_key (String.append a (String.append ":" b)) c d
  = make_session_key a (String.append b (String.append ":" c)) d
  /\ (forall now db,
        db !! make_session_key (String.append a (String.append ":" b)) c d = None ->
        get_session_inner (fst (create_session now db (String.append a (String.append ":" b)) c d))
          a (String.append b (String.append ":" c)) d
        = Return (Some (mkSession a (String.append b (String.append ":" c)) d []))).
Proof.
  assert (Hk : make_session_key (String.append a (String.append ":" b)) c d
               = make_session_key a (String.append b (String.append ":" c)) d).
  { unfold make_session_key. repeat rewrite <- string_append_assoc. reflexivity. }
  split; [exact Hk|].
  intros now db Hnone. unfold create_session. rewrite Hnone. simpl.
  unfold get_session_inner. rewrite <- Hk, lookup_insert_eq. reflexivity.
Qed.

Lemma append_colon_inj (a a' r r' : string) :
  no_colon a = true -> no_colon a' = true ->
  String.append a (String ":" r) = String.append a' (String ":" r') -> a = a' /\ r = r'.
Proof.
  revert a'. induction a as [|x a IH]; intros [|x' a'] Ha Ha' H; simpl in *.
  - injection H as ->. auto.
  - injection H as Hx _. subst x'. discriminate.
  - injection H as Hx _. subst x. discriminate.
  - injection H as -> H. apply andb_true_iff in Ha as [_ Ha]. apply andb_true_iff in Ha' as [_ Ha'].
    destruct (IH a' Ha Ha' H) as [-> ->]. auto.
Qed.

(** When neither the app name nor the user id contains [:], the key
    determines the three ids: distinct sessions get distinct rows. *)
Theorem make_session_key_injective (app_name user_id session_id app_name' user_id' session_id' : string) :
  no_colon app_name = true -> no_colon user_id = true ->
  no_colon app_name' = true -> no_colon user_id' = true ->
  make_session_key app_name user_id session_id = make_session_key app_name' user_id' session_id' ->
  app_name = app_name' /\ user_id = user_id' /\ session_id = session_id'.
Proof.
  unfold make_session_key. simpl. intros Ha Hu Ha' Hu' H.
  destruct (append_colon_inj _ _ _ _ Ha Ha' H) as [-> H2].
  destruct (append_colon_inj _ _ _ _ Hu Hu' H2) as [-> ->]. auto.
Qed.

Lemma make_session_key_injective_witness :
  no_colon "agents" = true /\ no_colon "u1" = true
  /\ make_session_key "agents" "u1" "s1" = make_session_key "agents" "u1" "s1"
  /\ ("agents" = "agents" /\ "u1" = "u1" /\ "s1" = "s1").
Proof.
  split; [reflexivity|]. split; [reflexivity|]. split; [reflexivity|].
  exact (make_session_key_injective "agents" "u1" "s1" "agents" "u1" "s1"
           eq_refl eq_refl eq_refl eq_refl eq_refl).
Defined.

(* ------------------------------------------------------------------ *)
(** ** Converting contents and the cleanup pass *)

Lemma scan_parts_responses (ps : list Part) :
  forall text calls resps t c r,
  scan_parts ps text calls resps = Some (t, c, r) ->
  r = resps ++ map (fun fr => mkMsg "tool" (Some (tool_content (fr_response fr))) None
                                (Some (id_or_unknown (fr_id fr))))
                 (part_responses ps).
Proof.
  induction ps as [|p ps IH]; intros text calls resps t c r H; simpl in H.
  - injection H as _ _ <-. simpl. rewrite app_nil_r. reflexivity.
  - destruct p as [s | fc | fr].
    + destruct (truthy_str s); apply IH in H; exact H.
    + destruct (call_arguments (fc_args fc)); [|discriminate]. apply IH in H. exact H.
    + apply IH in H. rewrite H, <- app_assoc. reflexivity.
Qed.

(** A content holding at least one function response becomes exactly one
    tool message per response, in order: its text and its function calls
    are dropped. *)
Theorem content_with_responses_only_tool_messages (c : Content) (ms : list Msg) :
  convert_content c = Some ms ->
  part_responses (c_parts c) <> [] ->
  ms = map (fun fr => mkMsg "tool" (Some (tool_content (fr_response fr))) None
                        (Some (id_or_unknown (fr_id fr))))
         (part_responses (c_parts c)).
Proof.
  unfold convert_content. intros H Hne.
  destruct (scan_parts (c_parts c) "" [] []) as [[[t calls] resps]|] eqn:E; [|discriminate].
  apply scan_parts_responses in E. simpl in E. subst resps.
  destruct (part_responses (c_parts c)) as [|fr frs]; [contradiction|].
  injection H as <-. reflexivity.
Qed.

Lemma content_with_responses_only_tool_messages_witness :
  let c := mkContent (Some "model") [PText "checking"; sample_call "a"; sample_response "a"] in
  convert_content c = Some [mkMsg "tool" (Some (tool_content (VDict [(VStr "files", VList [])]))) None (Some "a")]
  /\ part_responses (c_parts c) <> []
  /\ [mkMsg "tool" (Some (tool_content (VDict [(VStr "files", VList [])]))) None (Some "a")]
     = map (fun fr => mkMsg "tool" (Some (tool_content (fr_response fr))) None
                        (Some (id_or_unknown (fr_id fr))))
         (part_responses (c_parts c)).
Proof.
  cbv zeta.
  assert (H1 : convert_content (mkContent (Some "model") [PText "checking"; sample_call "a"; sample_response "a"])
               = Some [mkMsg "tool" (Some (tool_content (VDict [(VStr "files", VList [])]))) None (Some "a")])
    by (vm_compute; reflexivity).
  assert (H2 : part_responses (c_parts (mkContent (Some "model") [PText "checking"; sample_call "a"; sample_response "a"])) <> [])
    by (vm_compute; discriminate).
  split; [exact H1|]. split; [exact H2|].
  exact (content_with_responses_only_tool_messages _ _ H1 H2).
Defined.

Lemma clean_msg_not_assistant (ids : list string) (m : Msg) :
  List.filter not_assistant (clean_msg ids m) = List.filter not_assistant [m].
Proof.
  unfold clean_msg. destruct (String.eqb (m_role m) "assistant") eqn:E.
  - unfold not_assistant. simpl. rewrite E. simpl.
    destruct (m_tool_calls m) as [tcs|]; simpl; [|rewrite E; reflexivity].
    destruct (List.filter (has_response ids) tcs); simpl; [|rewrite E; reflexivity].
    destruct (truthy_payload (m_content m)); simpl; [rewrite E|]; reflexivity.
  - reflexivity.
Qed.

(** The cleanup pass never drops, reorders or alters a message that is not
    an assistant message: the user, system and tool messages come out
    exactly as they went in. *)
Theorem clean_messages_keeps_other_roles (ms : list Msg) :
  List.filter not_assistant (clean_messages ms) = List.filter not_assistant ms.
Proof.
  unfold clean_messages. generalize (tool_response_ids ms) as ids. intros ids.
  induction ms as [|m ms IH]; [reflexivity|].
  change (clean_with ids (m :: ms)) with (clean_msg ids m ++ clean_with ids ms).
  rewrite List.filter_app, IH, clean_msg_not_assistant.
  simpl. destruct (not_assistant m); reflexivity.
Qed.

Lemma tool_response_ids_clean_msg (ids : list string) (m : Msg) :
  tool_response_ids (clean_msg ids m) = tool_response_ids [m].
Proof.
  unfold clean_msg. destruct (String.eqb (m_role m) "assistant") eqn:E; [|reflexivity].
  apply String.eqb_eq in E.
  assert (Hm : tool_response_ids [m] = []) by (unfold tool_response_ids; simpl; rewrite E; reflexivity).
  rewrite Hm.
  destruct (m_tool_calls m) as [tcs|]; [|exact Hm].
  destruct (List.filter (has_response ids) tcs);
    [destruct (truthy_payload (m_content m))|];
    unfold tool_response_ids; simpl; rewrite ?E; reflexivity.
Qed.

Lemma tool_response_ids_app (l1 l2 : list Msg) :
  tool_response_ids (l1 ++ l2) = tool_response_ids l1 ++ tool_response_ids l2.
Proof. unfold tool_response_ids. apply flat_map_app. Qed.

Lemma tool_response_ids_clean_with (ids : list string) (ms : list Msg) :
  tool_response_ids (clean_with ids ms) = tool_response_ids ms.
Proof.
  induction ms as [|m ms IH]; [reflexivity|].
  change (clean_with ids (m :: ms)) with (clean_msg ids m ++ clean_with ids ms).
  rewrite tool_response_ids_app, IH, tool_response_ids_clean_msg.
  change (m :: ms) with ([m] ++ ms). rewrite tool_response_ids_app. reflexivity.
Qed.

Lemma filter_idem {A} (f : A -> bool) (l : list A) : List.filter f (List.filter f l) = List.filter f l.
Proof.
  induction l as [|x l IH]; [reflexivity|]. simpl.
  destruct (f x) eqn:E; simpl; [rewrite E, IH|]; exact IH || reflexivity.
Qed.

Lemma clean_with_clean_msg (ids : list string) (m : Msg) :
  clean_with ids (clean_msg ids m) = clean_msg ids m.
Proof.
  destruct (String.eqb (m_role m) "assistant") eqn:E.
  - destruct (m_tool_calls m) as [tcs|] eqn:Etc.
    + destruct (List.filter (has_response ids) tcs) as [|tc tcs'] eqn:F.
      * destruct (truthy_payload (m_content m)) eqn:T.
        -- assert (Hc : clean_msg ids m = [mkMsg (m_role m) (m_content m) None (m_tool_call_id m)])
             by (unfold clean_msg; rewrite E, Etc, F, T; reflexivity).
           rewrite Hc. unfold clean_with. cbn [flat_map]. rewrite app_nil_r.
           unfold clean_msg. cbn [m_role m_tool_calls m_content m_tool_call_id]. rewrite E. reflexivity.
        -- assert (Hc : clean_msg ids m = []) by (unfold clean_msg; rewrite E, Etc, F, T; reflexivity).
           rewrite Hc. reflexivity.
      * assert (Hc : clean_msg ids m = [mkMsg (m_role m) (m_content m) (Some (tc :: tcs')) (m_tool_call_id m)])
          by (unfold clean_msg; rewrite E, Etc, F; reflexivity).
        rewrite Hc. unfold clean_with. cbn [flat_map]. rewrite app_nil_r.
        unfold clean_msg. cbn [m_role m_tool_calls m_content m_tool_call_id].
        rewrite E, <- F, filter_idem, F. reflexivity.
    + assert (Hc : clean_msg ids m = [m]) by (unfold clean_msg; rewrite E, Etc; reflexivity).
      rewrite Hc. unfold clean_with. cbn [flat_map]. rewrite app_nil_r. exact Hc.
  - assert (Hc : clean_msg ids m = [m]) by (unfold clean_msg; rewrite E; reflexivity).
    rewrite Hc. unfold clean_with. cbn [flat_map]. rewrite app_nil_r. exact Hc.
Qed.

(** The cleanup pass is idempotent: running it on its own output changes
    nothing. *)
Theorem clean_messages_idempotent (ms : list Msg) :
  clean_messages (clean_messages ms) = clean_messages ms.
Proof.
  unfold clean_messages. rewrite tool_response_ids_clean_with. generalize (tool_response_ids ms) as ids. intros ids.
  induction ms as [|m ms IH]; [reflexivity|].
  change (clean_with ids (m :: ms)) with (clean_msg ids m ++ clean_with ids ms).
  unfold clean_with at 1. rewrite flat_map_app. fold (clean_with ids (clean_msg ids m)).
  fold (clean_with ids (clean_with ids ms)). rewrite IH, clean_with_clean_msg. reflexivity.
Qed.

(* ------------------------------------------------------------------ *)
(** ** Tool schemas *)

Lemma Schema_ind' (P : Schema -> Prop)
  (H : forall t d ps r it en,
      (forall l, ps = Some l -> Forall (fun kv => P (snd kv)) l) ->
      (forall i, it = Some i -> P i) ->
      P (mkSchema t d ps r it en)) :
  forall s, P s.
Proof.
  fix IH 1. intros [t d ps r it en]. apply H.
  - intros l Hl. destruct ps as [l'|]; [|discriminate]. injection Hl as <-.
    exact ((fix go (l : list (string * Schema)) : Forall (fun kv => P (snd kv)) l :=
              match l with
              | [] => List.Forall_nil _
              | kv :: l' => List.Forall_cons _ _ _ (IH (snd kv)) (go l')
              end) l').
  - intros i Hi. destruct it as [i'|]; [|discriminate]. injection Hi as <-. exact (IH i').
Qed.

Lemma type_mapping_get_in (schema_type : string) : In (type_mapping_get schema_type) openai_types.
Proof.
  unfold type_mapping_get, openai_types.
  repeat match goal with |- context [if ?b then _ else _] => destruct b end; simpl; tauto.
Qed.

Lemma encodable_str_list (l : list string) : forallb encodable (map VStr l) = true.
Proof. induction l as [|x l IH]; [reflexivity | exact IH]. Qed.

Lemma encodable_properties (l : list (string * Schema)) :
  Forall (fun kv => encodable (convert_schema (snd kv)) = true) l ->
  forallb (fun '(k, x) => is_json_key k && encodable x)
    (map (fun '(k, v) => (VStr k, convert_schema v)) l) = true.
Proof.
  induction 1 as [|[k v] l Hv _ IH]; [reflexivity|].
  simpl in *. rewrite Hv. exact IH.
Qed.

(** [_convert_schema_to_dict] always gives a dict that [json.dumps]
    accepts, at every depth, whose first key is ["type"] with one of the six
    JSON-schema types; a type it does not map (unspecified, NULL or no type)
    becomes ["string"]. *)
Theorem convert_schema_json (s : Schema) :
  encodable (convert_schema s) = true
  /\ exists t rest,
       convert_schema s = VDict ((VStr "type", VStr t) :: rest)
       /\ In t openai_types
       /\ (~ In (schema_type_str (sc_type s)) ["STRING"; "INTEGER"; "NUMBER"; "BOOLEAN"; "ARRAY"; "OBJECT"] ->
           t = "string").
Proof.
  split.
  - induction s as [t d ps r it en IHps IHit] using Schema_ind'.
    cbn [convert_schema encodable]. rewrite !forallb_app.
    repeat (apply andb_true_iff; split); [reflexivity | reflexivity | reflexivity | ..].
    + destruct d as [ds|]; [destruct (truthy_str ds)|]; reflexivity.
    + destruct ps as [[|kv l]|]; try reflexivity. cbn [forallb is_json_key encodable].
      rewrite (encodable_properties _ (IHps _ eq_refl)). reflexivity.
    + destruct r as [[|x l]|]; try reflexivity. cbn [forallb is_json_key encodable].
      change (forallb encodable (VStr x :: map VStr l)) with (forallb encodable (map VStr (x :: l))).
      rewrite encodable_str_list. reflexivity.
    + destruct it as [i|]; [|reflexivity]. cbn [forallb is_json_key]. rewrite (IHit i eq_refl). reflexivity.
    + destruct en as [[|x l]|]; try reflexivity. cbn [forallb is_json_key encodable].
      change (forallb encodable (VStr x :: map VStr l)) with (forallb encodable (map VStr (x :: l))).
      rewrite encodable_str_list. reflexivity.
  - destruct s as [t d ps r it en]. simpl sc_type.
    eexists _, _. split; [reflexivity|]. split; [apply type_mapping_get_in|].
    intros Hn. unfold type_mapping_get.
    repeat match goal with
           | |- context [String.eqb ?a ?b] =>
               let Eq := fresh "Eq" in
               destruct (String.eqb a b) eqn:Eq; [apply String.eqb_eq in Eq; exfalso; apply Hn; rewrite Eq; simpl; tauto|]
           end.
    reflexivity.
Qed.

(** The tool list sent to the backend: the call raises when a [types.Tool]
    has no function declarations; otherwise there is one entry per function
    declaration, in order, and each entry's parameters is a dict that
    [json.dumps] accepts, typed with one of the six JSON-schema types
    (["object"] with no properties when the declaration has no schema). *)
Theorem openai_tools_spec (tools : list ToolEntry) :
  (openai_tools tools = None <-> In (TTool None) tools)
  /\ (forall ots, openai_tools tools = Some ots ->
        ots = map declaration_tool (tool_declarations tools)
        /\ Forall (fun ot => encodable (ot_parameters ot) = true
                            /\ exists t rest, ot_parameters ot = VDict ((VStr "type", VStr t) :: rest)
                                              /\ In t openai_types) ots).
Proof.
  assert (Hok : forall f, encodable (ot_parameters (declaration_tool f)) = true
                          /\ exists t rest, ot_parameters (declaration_tool f) = VDict ((VStr "type", VStr t) :: rest)
                                            /\ In t openai_types).
  { intros f. unfold declaration_tool. cbn [ot_parameters].
    destruct (fd_parameters f) as [s|]; cbn [convert_schema_to_dict].
    - destruct (convert_schema_json s) as [He [t [rest [Hs [Hin _]]]]]. rewrite Hs.
      rewrite Hs in He. split; [exact He|]. exists t, rest. auto.
    - split; [reflexivity|]. eexists _, _. split; [reflexivity|]. simpl; tauto. }
  induction tools as [|[[ds|]|] tools IH].
  - split; [split; [discriminate | intros []]|].
    intros ots H. injection H as <-. split; [reflexivity | constructor].
  - destruct IH as [IHn IHs]. simpl. split.
    + destruct (openai_tools tools) as [ts|] eqn:E.
      * split; [discriminate|]. intros [Hc|Hc]; [discriminate|]. apply IHn in Hc. discriminate.
      * split; [intros _; right; apply IHn; reflexivity | reflexivity].
    + intros ots H. destruct (openai_tools tools) as [ts|] eqn:E; [|discriminate].
      injection H as <-. destruct (IHs ts eq_refl) as [-> Hf].
      unfold tool_declarations in *. simpl. rewrite map_app. split; [reflexivity|].
      apply Forall_app. split; [|exact Hf]. apply List.Forall_forall. intros ot Hin.
      apply in_map_iff in Hin as [f [<- _]]. apply Hok.
  - simpl. split; [split; [intros _; left; reflexivity | reflexivity]|]. discriminate.
  - destruct IH as [IHn IHs]. simpl. split.
    + rewrite IHn. split; [intros H; right; exact H | intros [H|H]; [discriminate | exact H]].
    + intros ots H. destruct (IHs ots H) as [-> Hf]. split; [reflexivity | exact Hf].
Qed.

(* ------------------------------------------------------------------ *)
(** ** The chat store and the chat endpoint *)

Lemma stored_messages_some (t : string) (l : list ChatMessage) :
  stored_messages (mkChatSessionRecord t (Some l)) = l.
Proof. reflexivity. Qed.

Lemma frame_contents_app (f1 f2 : list Frame) :
  frame_contents (f1 ++ f2) = String.append (frame_contents f1) (frame_contents f2).
Proof.
  induction f1 as [|[s|s|] f1 IH]; [reflexivity| |exact IH|exact IH].
  change (String.append s (frame_contents (f1 ++ f2))
          = String.append (String.append s (frame_contents f1)) (frame_contents f2)).
  rewrite IH. apply string_append_assoc.
Qed.

Lemma frame_contents_map (l : list string) : frame_contents (map FContent l) = concat_all l.
Proof. induction l as [|s l IH]; [reflexivity|]. simpl. rewrite IH. reflexivity. Qed.

Lemma string_append_nil_r (s : string) : String.append s "" = s.
Proof.
  induction s as [|c s IH]; [reflexivity|].
  change (String c (String.append s "") = String c s). rewrite IH. reflexivity.
Qed.

(** The reply [chat] saves: the texts of all the content frames of the
    stream, concatenated. *)
Lemma stream_generator_contents (setup : Outcome Session) (run : AgentRun) :
  frame_contents (stream_generator setup run)
  = match setup with
    | Raise _ => setup_error_text
    | Return _ =>
        concat_all (flat_map event_texts (run_events run)
                    ++ match run_error run with
                       | Some msg => [String.append "Error: " msg]
                       | None => []
                       end)
    end.
Proof.
  destruct setup as [s|e]; simpl.
  - rewrite flat_map_event_frames, app_assoc, frame_contents_app.
    replace (map FContent (flat_map event_texts (run_events run))
             ++ match run_error run with
                | Some msg => [FContent (String.append "Error: " msg)]
                | None => []
                end)
      with (map FContent (flat_map event_texts (run_events run)
                          ++ match run_error run with
                             | Some msg => [String.append "Error: " msg]
                             | None => []
                             end))
      by (rewrite map_app; destruct (run_error run); reflexivity).
    rewrite frame_contents_map. apply string_append_nil_r.
  - apply string_append_nil_r.
Qed.

(** A chat request on an existing chat session saves the user message,
    then, when it is not empty, one assistant message holding every text
    the stream sent, error texts included: after a failed setup the saved
    reply is the setup error message. *)
Theorem chat_saves_messages (faults : nat -> option Exn) (now : nat) (db : DB) (mongo : Mongo)
  (user_id session_id message : string) (run : AgentRun) (oid : string) (r : ChatSessionRecord) :
  object_id session_id = Some oid ->
  mongo !! oid = Some r ->
  let setup := snd (setup_session faults now db (add_message_to_session mongo session_id "user" message)
                      user_id session_id) in
  let reply := match setup with
               | Raise _ => setup_error_text
               | Return _ =>
                   concat_all (flat_map event_texts (run_events run)
                               ++ match run_error run with
                                  | Some msg => [String.append "Error: " msg]
                                  | None => []
                                  end)
               end in
  fst (chat_with_session faults now db mongo user_id session_id message run) !! oid
  = Some (mkChatSessionRecord (cs_title r)
            (Some (stored_messages r
                   ++ [mkChatMessage (Some "user") (Some message)]
                   ++ (if truthy_str reply then [mkChatMessage (Some "assistant") (Some reply)] else []))))
  /\ (forall k, k <> oid ->
        fst (chat_with_session faults now db mongo user_id session_id message run) !! k = mongo !! k).
Proof.
  intros Hoid Hr. cbv zeta. unfold chat_with_session, chat_setup. cbn [fst].
  rewrite stream_generator_contents.
  set (reply := match snd (setup_session faults now db (add_message_to_session mongo session_id "user" message)
                             user_id session_id) with
                | Raise _ => setup_error_text
                | Return _ => _
                end).
  assert (H1 : add_message_to_session mongo session_id "user" message !! oid
               = Some (mkChatSessionRecord (cs_title r)
                         (Some (stored_messages r ++ [mkChatMessage (Some "user") (Some message)])))).
  { unfold add_message_to_session. rewrite Hoid, Hr. apply lookup_insert_eq. }
  split.
  - destruct (truthy_str reply).
    + unfold add_message_to_session at 1. rewrite Hoid, H1, lookup_insert_eq.
      rewrite (stored_messages_some (cs_title r)), <- app_assoc. reflexivity.
    + rewrite H1, app_nil_r. reflexivity.
  - intros k Hk. destruct (truthy_str reply).
    + unfold add_message_to_session at 1. rewrite Hoid, H1, lookup_insert_ne by congruence.
      unfold add_message_to_session. rewrite Hoid, Hr, lookup_insert_ne by congruence. reflexivity.
    + unfold add_message_to_session. rewrite Hoid, Hr, lookup_insert_ne by congruence. reflexivity.
Qed.

Lemma chat_saves_messages_witness :
  object_id sample_oid = Some sample_oid
  /\ mongo_hi_hello !! sample_oid = Some (mkChatSessionRecord "hi..." (Some hi_hello))
  /\ fst (chat_with_session no_faults 0 ∅ mongo_hi_hello "u1" sample_oid "again"
            (mkAgentRun [message_event "model" "ok"] (Some "quota"))) !! sample_oid
     = Some (mkChatSessionRecord "hi..."
               (Some (hi_hello ++ [mkChatMessage (Some "user") (Some "again")]
                      ++ [mkChatMessage (Some "assistant") (Some "okError: quota")]))).
Proof.
  assert (H0 : object_id sample_oid = Some sample_oid) by (vm_compute; reflexivity).
  assert (H : mongo_hi_hello !! sample_oid = Some (mkChatSessionRecord "hi..." (Some hi_hello)))
    by apply lookup_insert_eq.
  split; [exact H0|]. split; [exact H|].
  exact (proj1 (chat_saves_messages no_faults 0 ∅ mongo_hi_hello "u1" sample_oid "again"
                  (mkAgentRun [message_event "model" "ok"] (Some "quota")) _ _ H0 H)).
Defined.




(** When the session store already has the row, setting up the session
    writes nothing and does not look at the chat store: whatever MongoDB
    holds, the session is the stored one when its events decode, and the
    setup fails with pydantic's validation error when one does not. *)
Theorem setup_existing_ignores_chat_store (faults : nat -> option Exn) (now : nat) (db : DB) (mongo : Mongo)
  (user_id session_id : string) (record : SessionRecord) :
  faults 0 = None ->
  db !! make_session_key "agents" user_id session_id = Some record ->
  (forall events, load_events (rec_events record) = Some events ->
     setup_session faults now db mongo user_id session_id
     = (db, Return (mkSession "agents" user_id session_id events)))
  /\ (load_events (rec_events record) = None ->
      setup_session faults now db mongo user_id session_id = (db, Raise validation_error)).
Proof.
  intros Hf Hr. unfold setup_session. rewrite (get_session_first_attempt _ _ _ _ _ Hf). simpl fst.
  unfold get_session_inner. rewrite Hr.
  split; [intros events Hl | intros Hl]; rewrite Hl; reflexivity.
Qed.

Lemma setup_existing_ignores_chat_store_witness :
  no_faults 0 = None
  /\ sample_db_oid !! make_session_key "agents" "u1" sample_oid
     = Some (mkSessionRecord "agents" "u1" sample_oid [] 0 0)
  /\ setup_session no_faults 5 sample_db_oid mongo_hi_hello "u1" sample_oid
     = (sample_db_oid, Return (mkSession "agents" "u1" sample_oid [])).
Proof.
  assert (H1 : no_faults 0 = None) by reflexivity.
  assert (H2 : sample_db_oid !! make_session_key "agents" "u1" sample_oid
               = Some (mkSessionRecord "agents" "u1" sample_oid [] 0 0))
    by apply lookup_insert_eq.
  split; [exact H1|]. split; [exact H2|].
  exact (proj1 (setup_existing_ignores_chat_store no_faults 5 sample_db_oid mongo_hi_hello "u1" sample_oid _
                  H1 H2) [] eq_refl).
Defined.

Lemma hydrate_app (now : nat) (pre rest : list ChatMessage) :
  forall (db db1 : DB) (session session1 : Session),
  hydrate now db session pre = (db1, session1, Return tt) ->
  hydrate now db session (pre ++ rest) = hydrate now db1 session1 rest.
Proof.
  induction pre as [|m pre IH]; intros db db1 session session1 H.
  - cbn [hydrate] in H. injection H as <- <-. reflexivity.
  - cbn [hydrate List.app] in H |- *.
    destruct (cm_content m) as [c|]; [destruct (truthy_str c); [destruct (cm_role m) as [role|]|]|].
    + destruct (append_event now db session (message_event role c)) as [[db' s'] [u|e]];
        [apply IH; exact H | discriminate].
    + discriminate.
    + apply IH; exact H.
    + apply IH; exact H.
Qed.

(** A hydration that stops at a stored message without a role fails the
    request but keeps the events it already appended; the next request
    finds the row and never hydrates again, so the session stays with the
    messages before the faulty one. *)
Theorem failed_hydration_is_not_retried (faults : nat -> option Exn) (now : nat) (db : DB) (mongo : Mongo)
  (user_id session_id : string) (record : ChatSessionRecord) (pre post : list ChatMessage) (bad : ChatMessage)
  (c : string) :
  faults 0 = None ->
  db !! make_session_key "agents" user_id session_id = None ->
  find_chat_session mongo session_id = Some record ->
  cs_messages record = Some (pre ++ bad :: post) ->
  Forall (fun m => cm_role m <> None) pre ->
  cm_role bad = None -> cm_content bad = Some c -> truthy_str c = true ->
  exists db1,
    setup_session faults now db mongo user_id session_id = (db1, Raise (mkExn KeyError "role"))
    /\ get_session_inner db1 "agents" user_id session_id
       = Return (Some (mkSession "agents" user_id session_id (hydrated_events pre)))
    /\ (forall faults' now' mongo', faults' 0 = None ->
          setup_session faults' now' db1 mongo' user_id session_id
          = (db1, Return (mkSession "agents" user_id session_id (hydrated_events pre)))).
Proof.
  intros Hf Hdb Hm Hmsgs Hroles Hbr Hbc Ht.
  unfold setup_session at 1. rewrite (get_session_first_attempt _ _ _ _ _ Hf). simpl fst.
  unfold get_session_inner at 1. rewrite Hdb.
  unfold create_session. rewrite Hdb. rewrite Hm, Hmsgs.
  set (r0 := mkSessionRecord "agents" user_id session_id [] now now).
  set (created := mkSession "agents" user_id session_id []).
  assert (Hr0 : <[make_session_key "agents" user_id session_id := r0]> db !! session_key created = Some r0)
    by apply lookup_insert_eq.
  destruct (hydrate_replays now pre _ created r0 [] Hr0 eq_refl eq_refl Hroles) as [db1 [r1 [Hh [Hl [_ Hmap]]]]].
  assert (Hbad : hydrate now (<[make_session_key "agents" user_id session_id := r0]> db) created (pre ++ bad :: post)
                 = (db1, mkSession "agents" user_id session_id ([] ++ hydrated_events pre),
                    Raise (mkExn KeyError "role"))).
  { rewrite (hydrate_app _ _ _ _ _ _ _ Hh). cbn [hydrate]. rewrite Hbc, Ht, Hbr. reflexivity. }
  assert (Hget : get_session_inner db1 "agents" user_id session_id
                 = Return (Some (mkSession "agents" user_id session_id (hydrated_events pre)))).
  { unfold get_session_inner. change (make_session_key "agents" user_id session_id) with (session_key created).
    rewrite Hl, Hmap. reflexivity. }
  exists db1.
  assert (Hcons : exists x l, pre ++ bad :: post = x :: l) by (destruct pre; eexists _, _; reflexivity).
  destruct Hcons as [x [l Hxl]]. rewrite Hxl. rewrite <- Hxl, Hbad.
  split; [reflexivity|]. split; [exact Hget|].
  intros faults' now' mongo' Hf'. unfold setup_session. rewrite (get_session_first_attempt _ _ _ _ _ Hf').
  simpl fst. rewrite Hget. reflexivity.
Qed.

Lemma failed_hydration_is_not_retried_witness :
  no_faults 0 = None
  /\ (∅ : DB) !! make_session_key "agents" "u1" sample_oid = None
  /\ find_chat_session mongo_partial sample_oid
     = Some (mkChatSessionRecord "hi..."
               (Some [mkChatMessage (Some "user") (Some "hi"); mkChatMessage None (Some "oops");
                      mkChatMessage (Some "assistant") (Some "hello")]))
  /\ exists db1,
       setup_session no_faults 0 ∅ mongo_partial "u1" sample_oid = (db1, Raise (mkExn KeyError "role"))
       /\ get_session_inner db1 "agents" "u1" sample_oid
          = Return (Some (mkSession "agents" "u1" sample_oid [message_event "user" "hi"]))
       /\ (forall faults' now' mongo', faults' 0 = None ->
             setup_session faults' now' db1 mongo' "u1" sample_oid
             = (db1, Return (mkSession "agents" "u1" sample_oid [message_event "user" "hi"]))).
Proof.
  assert (H1 : no_faults 0 = None) by reflexivity.
  assert (H2 : (∅ : DB) !! make_session_key "agents" "u1" sample_oid = None) by apply lookup_empty.
  assert (H3 : find_chat_session mongo_partial sample_oid
               = Some (mkChatSessionRecord "hi..."
                         (Some [mkChatMessage (Some "user") (Some "hi"); mkChatMessage None (Some "oops");
                                mkChatMessage (Some "assistant") (Some "hello")])))
    by (vm_compute; reflexivity).
  split; [exact H1|]. split; [exact H2|]. split; [exact H3|].
  exact (failed_hydration_is_not_retried no_faults 0 ∅ mongo_partial "u1" sample_oid _
           [mkChatMessage (Some "user") (Some "hi")] [mkChatMessage (Some "assistant") (Some "hello")]
           (mkChatMessage None (Some "oops")) "oops"
           H1 H2 H3 eq_refl (ltac:(repeat constructor; discriminate)) eq_refl eq_refl eq_refl).
Defined.
